(** * investpy_portfolio: the StockPortfolio class

    A shallow embedding of [investpy_portfolio/StockPortfolio.py].

    - Python [float] and [numpy.float64] values (prices, values) are
      IEEE 754 binary64 numbers, embedded as the [spec_float] of the
      Standard Library with its round-to-nearest-even operations.
    - Python [int] is [Z], [str] is [string], a list is a [list].
    - A method of the class mutates [self] and may raise: it is a
      computation [M A] from the portfolio before the call to the outcome
      (a value or the exception raised), the portfolio as the call left it
      (also when it raised), and the requests sent to the price provider.
    - The collaborators that live outside the module ([investpy], the
      [Stock] class, the calendar) are gathered in an environment [Env]
      handed to every call. *)

From Stdlib Require Import List String ZArith Bool Lia Sorted SpecFloat.
Import ListNotations.

Local Open Scope Z_scope.

(** ** Exceptions and outcomes *)

Inductive Exception : Type :=
| ValueError (msg : string)
| IndexError (msg : string)
| ConnectionError (msg : string)
| RuntimeError (msg : string)
| OverflowError (msg : string).

Inductive Result (A : Type) : Type :=
| Return (a : A)
| Raise (e : Exception).

Arguments Return {A} a.
Arguments Raise {A} e.

Definition completed {A : Type} (r : Result A) : bool :=
  match r with
  | Return _ => true
  | Raise _ => false
  end.

(** ** Floating-point numbers *)

(** A Python [float]: binary64, with the signed zeros, the infinities and
    NaN. *)
Definition float : Type := spec_float.

(** [sys.float_info.mant_dig] and [sys.float_info.max_exp]. *)
Definition mant_dig : Z := 53.
Definition max_exp : Z := 1024.

(** The product of two floats, rounded to nearest, ties to even. *)
Definition float_mul (x y : float) : float := SFmul mant_dig max_exp x y.

(** The binary64 number nearest to an integer, ties to even; an infinity
    when the integer is beyond the largest float. *)
Definition float_of_Z (n : Z) : float :=
  binary_normalize mant_dig max_exp n 0 false.

(** The conversion of the [int] operand in a product [float * int]: the
    nearest float, and [OverflowError] for an [int] beyond the range of
    [float]. *)
Definition int_to_float (n : Z) : Result float :=
  match float_of_Z n with
  | S754_infinity _ => Raise (OverflowError "int too large to convert to float")
  | f => Return f
  end.

(** [+0.0] or [-0.0]. *)
Definition is_zero (x : float) : bool :=
  match x with
  | S754_zero _ => true
  | _ => false
  end.

(** Neither an infinity nor NaN. *)
Definition is_finite (x : float) : bool :=
  match x with
  | S754_zero _ | S754_finite _ _ _ => true
  | S754_infinity _ | S754_nan => false
  end.

(** ** The Stock class (imported from [investpy_portfolio.Stock]) *)

Module Stock.

Record t : Type := mk {
  stock_name : string;
  stock_country : string;
  purchase_date : string;
  num_of_shares : Z;
  cost_per_share : float;
  valid : bool
}.

(** Modelled from the spec: [Stock.__init__] is not in the sources at
    hand.  Construction stores the five fields and performs no I/O; the
    validity flag is unset until [validate] runs. *)
Definition init (stock_name stock_country purchase_date : string)
    (num_of_shares : Z) (cost_per_share : float) : t :=
  mk stock_name stock_country purchase_date num_of_shares cost_per_share
     false.

(** Modelled from the spec: [Stock.validate] is not in the sources at
    hand.  It asks the instrument catalog whether the entry resolves,
    records the answer in the flag and never raises; the catalog itself
    is a parameter. *)
Definition validate (catalog : t -> bool) (s : t) : t :=
  mk (stock_name s) (stock_country s) (purchase_date s)
     (num_of_shares s) (cost_per_share s) (catalog s).

End Stock.

(** ** The price provider ([investpy.get_historical_data]) *)

(** One daily record of the returned frame; [Date] is the index, as a day
    number, and the price columns hold [numpy.float64] values. *)
Record Bar : Type := mkBar {
  Date : Z;
  Open : float;
  High : float;
  Low : float;
  Close : float;
  Volume : Z
}.

(** The keyword arguments of one [get_historical_data] call. *)
Record Query : Type := mkQuery {
  equity : string;
  country : string;
  from_date : string;
  to_date : string
}.

(** What the provider does with a request: it raises, or it returns a
    frame (possibly without rows). *)
Inductive Response : Type :=
| Fails (e : Exception)
| Frame (rows : list Bar).

(** The world around one call of a method: the instrument catalog behind
    [Stock.validate], the provider, and [date.today().strftime(...)].
    Two calls may be handed different worlds; within one call the answer
    of the provider depends on the request alone. *)
Record Env : Type := mkEnv {
  catalog : Stock.t -> bool;
  get_historical_data : Query -> Response;
  today : string
}.

(** ** Portfolio rows and the portfolio object *)

(** The [info] dict built by [__get_stock_info]; the fields are its keys,
    in insertion order. *)
Module Info.

Record t : Type := mk {
  stock_name : string;
  stock_country : string;
  purchase_date : string;
  num_of_shares : Z;
  cost_per_share : float;
  current_price : float;
  gross_current_value : float
}.

End Info.

(** [pd.DataFrame(rows)] copies the rows it is given: the snapshot does
    not alias [self._stocks]. *)
Inductive DataFrame : Type :=
| pd_DataFrame (rows : list Info.t).

Record StockPortfolio : Type := mkPortfolio {
  _stocks : list Info.t;
  _stock_objs : list Stock.t;
  data : option DataFrame
}.

(** ** Computations on a portfolio *)

Record Run (A : Type) : Type := mkRun {
  outcome : Result A;
  final : StockPortfolio;
  requests : list Query
}.

Arguments mkRun {A} outcome final requests.
Arguments outcome {A} r.
Arguments final {A} r.
Arguments requests {A} r.

Definition M (A : Type) : Type := StockPortfolio -> Run A.

Definition ret {A : Type} (a : A) : M A :=
  fun self => mkRun (Return a) self [].

Definition raise {A : Type} (e : Exception) : M A :=
  fun self => mkRun (Raise e) self [].

Definition bind {A B : Type} (m : M A) (k : A -> M B) : M B :=
  fun self =>
    let r := m self in
    match outcome r with
    | Return a =>
        let r' := k a (final r) in
        mkRun (outcome r') (final r') (requests r ++ requests r')
    | Raise e => mkRun (Raise e) (final r) (requests r)
    end.

Declare Scope portfolio_scope.
Delimit Scope portfolio_scope with pf.

Notation "x <- m ;; k" := (bind m (fun x => k))
  (at level 61, m at next level, right associativity) : portfolio_scope.
Notation "m ;; k" := (bind m (fun _ => k))
  (at level 61, right associativity) : portfolio_scope.

Local Open Scope portfolio_scope.

(** A pure computation that may raise, run inside a method. *)
Definition lift {A : Type} (r : Result A) : M A :=
  fun self => mkRun r self [].

(** [self._stock_objs.append(stock)] *)
Definition stock_objs_append (stock : Stock.t) : M unit :=
  fun self =>
    mkRun (Return tt)
          (mkPortfolio (_stocks self) (_stock_objs self ++ [stock])
                       (data self))
          [].

(** [self._stocks.append(info)] *)
Definition stocks_append (info : Info.t) : M unit :=
  fun self =>
    mkRun (Return tt)
          (mkPortfolio (_stocks self ++ [info]) (_stock_objs self)
                       (data self))
          [].

(** [self._stocks = list()] *)
Definition stocks_reset : M unit :=
  fun self =>
    mkRun (Return tt) (mkPortfolio [] (_stock_objs self) (data self)) [].

(** [self.data = pd.DataFrame(self._stocks)] *)
Definition data_rebuild : M unit :=
  fun self =>
    mkRun (Return tt)
          (mkPortfolio (_stocks self) (_stock_objs self)
                       (Some (pd_DataFrame (_stocks self))))
          [].

(** One round trip to the provider: the request is recorded, the answer
    is returned or its exception raised. *)
Definition investpy_get_historical_data (env : Env) (q : Query)
    : M (list Bar) :=
  fun self =>
    match get_historical_data env q with
    | Fails e => mkRun (Raise e) self [q]
    | Frame rows => mkRun (Return rows) self [q]
    end.

(** ** The methods of [StockPortfolio] *)

(** [__init__] *)
Definition init : StockPortfolio :=
  mkPortfolio [] [] None.

(** [current_price(data)]: [data.iloc[-1]['Close']].  Position [-1] of a
    frame without rows is out of bounds. *)
Fixpoint iloc_last (rows : list Bar) : Result Bar :=
  match rows with
  | [] => Raise (IndexError "single positional indexer is out-of-bounds")
  | [b] => Return b
  | _ :: rest => iloc_last rest
  end.

Definition current_price (data : list Bar) : Result float :=
  match iloc_last data with
  | Return b => Return (Close b)
  | Raise e => Raise e
  end.

(** [gross_current_value(current_price, num_of_shares)]:
    [float(current_price * num_of_shares)].  The price is the
    [numpy.float64] read from the frame and the number of shares the
    [int] of the caller: the [int] is converted, the product is rounded,
    and [float(...)] of a float is that float. *)
Definition gross_current_value (current_price : float) (num_of_shares : Z)
    : Result float :=
  match int_to_float num_of_shares with
  | Return shares => Return (float_mul current_price shares)
  | Raise e => Raise e
  end.

(** The request [__get_stock_info] sends for a holding. *)
Definition query_of (env : Env) (stock : Stock.t) : Query :=
  mkQuery (Stock.stock_name stock) (Stock.stock_country stock)
          (Stock.purchase_date stock) (today env).

(** [__get_stock_info(stock)] *)
Definition get_stock_info (env : Env) (stock : Stock.t) : M Info.t :=
  data <- investpy_get_historical_data env (query_of env stock) ;;
  curr_price <- lift (current_price data) ;;
  gross <- lift (gross_current_value curr_price
                                      (Stock.num_of_shares stock)) ;;
  ret (Info.mk (Stock.stock_name stock)
               (Stock.stock_country stock)
               (Stock.purchase_date stock)
               (Stock.num_of_shares stock)
               (Stock.cost_per_share stock)
               curr_price
               gross).

(** [add_stock(stock_name, stock_country, purchase_date, num_of_shares,
    cost_per_share)] *)
Definition add_stock (env : Env)
    (stock_name stock_country purchase_date : string)
    (num_of_shares : Z) (cost_per_share : float) : M unit :=
  let stock :=
    Stock.validate (catalog env)
      (Stock.init stock_name stock_country purchase_date num_of_shares
                  cost_per_share) in
  if Stock.valid stock then
    stock_objs_append stock ;;
    info <- get_stock_info env stock ;;
    stocks_append info ;;
    data_rebuild
  else
    raise (ValueError "ERROR [0001]: The introduced Stock is not valid.").

(** The body of the [for stock_obj in self._stock_objs] loop of
    [refresh], over the holdings still to visit. *)
Fixpoint refresh_loop (env : Env) (stock_objs : list Stock.t) : M unit :=
  match stock_objs with
  | [] => ret tt
  | stock_obj :: rest =>
      info <- get_stock_info env stock_obj ;;
      stocks_append info ;;
      refresh_loop env rest
  end.

(** [refresh()] *)
Definition refresh (env : Env) : M unit :=
  fun self =>
    if (0 <? Z.of_nat (List.length (_stock_objs self)))%Z then
      (stocks_reset ;;
       refresh_loop env (_stock_objs self) ;;
       data_rebuild) self
    else
      ret tt self.

(** ** Vocabulary of the specification *)

(** What a round trip for a holding yields when nothing else interferes:
    the row, or the exception of the provider, of [current_price] or of
    [gross_current_value]. *)
Definition row_of (env : Env) (stock : Stock.t) : Result Info.t :=
  match get_historical_data env (query_of env stock) with
  | Fails e => Raise e
  | Frame rows =>
      match current_price rows with
      | Raise e => Raise e
      | Return p =>
          match gross_current_value p (Stock.num_of_shares stock) with
          | Raise e => Raise e
          | Return gross =>
              Return (Info.mk (Stock.stock_name stock)
                              (Stock.stock_country stock)
                              (Stock.purchase_date stock)
                              (Stock.num_of_shares stock)
                              (Stock.cost_per_share stock)
                              p
                              gross)
          end
      end
  end.

(** The holding [add_stock] builds from its arguments. *)
Definition holding_of (env : Env)
    (stock_name stock_country purchase_date : string)
    (num_of_shares : Z) (cost_per_share : float) : Stock.t :=
  Stock.validate (catalog env)
    (Stock.init stock_name stock_country purchase_date num_of_shares
                cost_per_share).

(** The rows of the holdings up to the first failing round trip, and that
    failure if there is one. *)
Fixpoint rows_until (env : Env) (stock_objs : list Stock.t)
    : list Info.t * option Exception :=
  match stock_objs with
  | [] => ([], None)
  | s :: rest =>
      match row_of env s with
      | Raise e => ([], Some e)
      | Return info =>
          let (rows, err) := rows_until env rest in (info :: rows, err)
      end
  end.

(** The requests sent up to and including the first failing one. *)
Fixpoint requests_until (env : Env) (stock_objs : list Stock.t)
    : list Query :=
  match stock_objs with
  | [] => []
  | s :: rest =>
      match row_of env s with
      | Raise _ => [query_of env s]
      | Return _ => query_of env s :: requests_until env rest
      end
  end.

(** A row is computed from a holding when some state of the provider
    yields it for that holding. *)
Definition computed_from (info : Info.t) (stock : Stock.t) : Prop :=
  exists env, row_of env stock = Return info.

(** The lockstep invariant of the data model: same length, row [i]
    computed from holding [i]. *)
Definition lockstep (self : StockPortfolio) : Prop :=
  Forall2 computed_from (_stocks self) (_stock_objs self).

(** A call a client can make on a portfolio. *)
Inductive Call : Type :=
| AddStock (env : Env) (stock_name stock_country purchase_date : string)
           (num_of_shares : Z) (cost_per_share : float)
| Refresh (env : Env).

Definition exec (c : Call) : M unit :=
  match c with
  | AddStock env n c d k p => add_stock env n c d k p
  | Refresh env => refresh env
  end.

(** A client that goes on after a call raised keeps the object as the
    call left it. *)
Fixpoint run_calls (cs : list Call) (self : StockPortfolio)
    : StockPortfolio :=
  match cs with
  | [] => self
  | c :: rest => run_calls rest (final (exec c self))
  end.

(** The outcomes of the calls of a history, in order. *)
Fixpoint outcomes (cs : list Call) (self : StockPortfolio)
    : list (Result unit) :=
  match cs with
  | [] => []
  | c :: rest => outcome (exec c self) :: outcomes rest (final (exec c self))
  end.

(** The portfolios a client can hold: a new one, and what any call, raised
    or not, leaves behind. *)
Inductive reachable : StockPortfolio -> Prop :=
| reachable_init : reachable init
| reachable_call (c : Call) (self : StockPortfolio) :
    reachable self -> reachable (final (exec c self)).

(** A call rebuilt the snapshot: it completed after at least one round
    trip. *)
Definition fetched_and_completed (c : Call) (self : StockPortfolio) : bool :=
  completed (outcome (exec c self)) &&
  negb (Nat.eqb (List.length (requests (exec c self))) 0).

(** No call of the history rebuilt the snapshot. *)
Fixpoint none_rebuilt (cs : list Call) (self : StockPortfolio) : bool :=
  match cs with
  | [] => true
  | c :: rest =>
      negb (fetched_and_completed c self) &&
      none_rebuilt rest (final (exec c self))
  end.

(** The row a call of [add_stock] records when it succeeds. *)
Definition row_of_call (c : Call) : Result Info.t :=
  match c with
  | AddStock env n c d k p => row_of env (holding_of env n c d k p)
  | Refresh _ => Raise (RuntimeError "not an add_stock call")
  end.

Definition is_add (c : Call) : bool :=
  match c with
  | AddStock _ _ _ _ _ _ => true
  | Refresh _ => false
  end.

(** Chronological order of a price series. *)
Definition chronological (series : list Bar) : Prop :=
  Sorted (fun a b => (Date a <= Date b)%Z) series.

(** How the loop of [refresh] ends. *)
Definition loop_outcome (err : option Exception) : Result unit :=
  match err with
  | None => Return tt
  | Some e => Raise e
  end.

(** The three ways a call of [add_stock] can go. *)
Inductive add_stock_cases (env : Env) (n c d : string) (k : Z) (p : float)
    (self : StockPortfolio) : Run unit -> Prop :=
| add_rejected :
    Stock.valid (holding_of env n c d k p) = false ->
    add_stock_cases env n c d k p self
      (mkRun (Raise (ValueError
                       "ERROR [0001]: The introduced Stock is not valid."))
             self [])
| add_fetch_failed (e : Exception) :
    Stock.valid (holding_of env n c d k p) = true ->
    row_of env (holding_of env n c d k p) = Raise e ->
    add_stock_cases env n c d k p self
      (mkRun (Raise e)
             (mkPortfolio (_stocks self)
                          (_stock_objs self ++ [holding_of env n c d k p])
                          (data self))
             [query_of env (holding_of env n c d k p)])
| add_recorded (info : Info.t) :
    Stock.valid (holding_of env n c d k p) = true ->
    row_of env (holding_of env n c d k p) = Return info ->
    add_stock_cases env n c d k p self
      (mkRun (Return tt)
             (mkPortfolio (_stocks self ++ [info])
                          (_stock_objs self ++ [holding_of env n c d k p])
                          (Some (pd_DataFrame (_stocks self ++ [info]))))
             [query_of env (holding_of env n c d k p)]).

(** Without holdings there are no rows and no snapshot. *)
Definition rows_need_holdings (self : StockPortfolio) : Prop :=
  _stock_objs self = [] -> _stocks self = [] /\ data self = None.

(** ** Sample collaborators *)

Definition acme_series : list Bar :=
  [ mkBar 18263 (float_of_Z 100) (float_of_Z 104) (float_of_Z 99) (float_of_Z 102) 12000;
    mkBar 18264 (float_of_Z 102) (float_of_Z 151) (float_of_Z 101) (float_of_Z 150) 34000 ].

(** The catalog knows every instrument and the provider has data. *)
Definition env_ok : Env :=
  mkEnv (fun _ => true) (fun _ => Frame acme_series) "03/11/2026".

(** The catalog knows every instrument, the provider has no rows. *)
Definition env_no_data : Env :=
  mkEnv (fun _ => true) (fun _ => Frame []) "03/11/2026".

(** The catalog knows every instrument, the provider is unreachable. *)
Definition env_down : Env :=
  mkEnv (fun _ => true)
        (fun _ => Fails (ConnectionError "provider unreachable"))
        "04/11/2026".

(** The catalog knows no instrument. *)
Definition env_unknown : Env :=
  mkEnv (fun _ => false) (fun _ => Frame acme_series) "03/11/2026".

(** A portfolio with one recorded holding. *)
Definition acme_portfolio : StockPortfolio :=
  run_calls [AddStock env_ok "ACME" "US" "01/01/2020" 10 (float_of_Z 100)] init.

(** ** Vocabulary of the further properties *)

(** [sub] is [l] with some entries left out, the others in their order. *)
Inductive subsequence {A : Type} : list A -> list A -> Prop :=
| subsequence_nil : subsequence [] []
| subsequence_skip (x : A) (sub l : list A) :
    subsequence sub l -> subsequence sub (x :: l)
| subsequence_take (x : A) (sub l : list A) :
    subsequence sub l -> subsequence (x :: sub) (x :: l).

(** The holdings the [add_stock] calls of a history put in the list: one
    for each call whose holding the catalog accepts, in call order. *)
Fixpoint accepted_holdings (cs : list Call) : list Stock.t :=
  match cs with
  | [] => []
  | AddStock env n c d k p :: rest =>
      if Stock.valid (holding_of env n c d k p)
      then holding_of env n c d k p :: accepted_holdings rest
      else accepted_holdings rest
  | Refresh _ :: rest => accepted_holdings rest
  end.

(** The integer is within the range of [float]. *)
Definition converts (n : Z) : Prop :=
  exists shares, int_to_float n = Return shares.

(** No [refresh] of the history completed. *)
Fixpoint no_refresh_completed (cs : list Call) (self : StockPortfolio)
    : bool :=
  match cs with
  | [] => true
  | c :: rest =>
      (is_add c || negb (completed (outcome (exec c self)))) &&
      no_refresh_completed rest (final (exec c self))
  end.

(** The float [0.1]. *)
Definition one_tenth : float :=
  S754_finite false 7205759403792794 (-56).

(** A frame with at least one row. *)
Definition has_rows (r : Response) : Prop :=
  exists earlier latest, r = Frame (earlier ++ [latest]).

(** The rows are those of some of the holdings, in the order of the
    holdings. *)
Definition rows_of_some_holdings (rows : list Info.t)
    (stock_objs : list Stock.t) : Prop :=
  exists kept,
    subsequence kept stock_objs /\ Forall2 computed_from rows kept.

(** The rows the [add_stock] calls of a history record: one for each call
    that passes validation and whose round trip yields a row, in call
    order. *)
Fixpoint recorded_rows (cs : list Call) : list Info.t :=
  match cs with
  | [] => []
  | AddStock env n c d k p :: rest =>
      if Stock.valid (holding_of env n c d k p) then
        match row_of env (holding_of env n c d k p) with
        | Return info => info :: recorded_rows rest
        | Raise _ => recorded_rows rest
        end
      else recorded_rows rest
  | Refresh _ :: rest => recorded_rows rest
  end.

(** ** Equations of the methods *)

Lemma bind_run {A B : Type} (m : M A) (k : A -> M B)
    (self : StockPortfolio) :
  bind m k self
  = match outcome (m self) with
    | Return a =>
        mkRun (outcome (k a (final (m self))))
              (final (k a (final (m self))))
              (requests (m self) ++ requests (k a (final (m self))))
    | Raise e => mkRun (Raise e) (final (m self)) (requests (m self))
    end.
Proof. reflexivity. Qed.

Lemma get_stock_info_run (env : Env) (stock : Stock.t)
    (self : StockPortfolio) :
  get_stock_info env stock self
  = mkRun (row_of env stock) self [query_of env stock].
Proof.
  unfold get_stock_info, row_of, bind, investpy_get_historical_data, lift,
    ret.
  destruct (get_historical_data env (query_of env stock)) as [e | rows];
    simpl; [reflexivity |].
  destruct (current_price rows) as [p | e]; simpl; [| reflexivity].
  destruct (gross_current_value p (Stock.num_of_shares stock));
    reflexivity.
Qed.

Lemma add_stock_rejected (env : Env) (n c d : string) (k : Z) (p : float)
    (self : StockPortfolio) :
  Stock.valid (holding_of env n c d k p) = false ->
  add_stock env n c d k p self
  = mkRun (Raise (ValueError
                    "ERROR [0001]: The introduced Stock is not valid."))
          self [].
Proof.
  intros Hv. unfold add_stock. fold (holding_of env n c d k p).
  rewrite Hv. reflexivity.
Qed.

Lemma add_stock_fetch_failed (env : Env) (n c d : string) (k : Z) (p : float)
    (self : StockPortfolio) (e : Exception) :
  Stock.valid (holding_of env n c d k p) = true ->
  row_of env (holding_of env n c d k p) = Raise e ->
  add_stock env n c d k p self
  = mkRun (Raise e)
          (mkPortfolio (_stocks self)
                       (_stock_objs self ++ [holding_of env n c d k p])
                       (data self))
          [query_of env (holding_of env n c d k p)].
Proof.
  intros Hv Hrow. unfold add_stock. fold (holding_of env n c d k p).
  rewrite Hv. unfold bind. cbv zeta.
  cbn [stock_objs_append outcome final requests].
  rewrite !get_stock_info_run. cbn [outcome final requests].
  rewrite Hrow. reflexivity.
Qed.

Lemma add_stock_recorded (env : Env) (n c d : string) (k : Z) (p : float)
    (self : StockPortfolio) (info : Info.t) :
  Stock.valid (holding_of env n c d k p) = true ->
  row_of env (holding_of env n c d k p) = Return info ->
  add_stock env n c d k p self
  = mkRun (Return tt)
          (mkPortfolio (_stocks self ++ [info])
                       (_stock_objs self ++ [holding_of env n c d k p])
                       (Some (pd_DataFrame (_stocks self ++ [info]))))
          [query_of env (holding_of env n c d k p)].
Proof.
  intros Hv Hrow. unfold add_stock. fold (holding_of env n c d k p).
  rewrite Hv. unfold bind. cbv zeta.
  cbn [stock_objs_append outcome final requests].
  rewrite !get_stock_info_run. cbn [outcome final requests].
  rewrite Hrow. reflexivity.
Qed.

Lemma add_stock_inv (env : Env) (n c d : string) (k : Z) (p : float)
    (self : StockPortfolio) :
  add_stock_cases env n c d k p self (add_stock env n c d k p self).
Proof.
  destruct (Stock.valid (holding_of env n c d k p)) eqn:Hv.
  - destruct (row_of env (holding_of env n c d k p)) as [info | e] eqn:Hrow.
    + rewrite (add_stock_recorded _ _ _ _ _ _ _ info Hv Hrow).
      now apply add_recorded.
    + rewrite (add_stock_fetch_failed _ _ _ _ _ _ _ e Hv Hrow).
      now apply add_fetch_failed.
  - rewrite (add_stock_rejected _ _ _ _ _ _ _ Hv). now apply add_rejected.
Qed.

Lemma refresh_loop_run (env : Env) (stock_objs : list Stock.t) :
  forall self : StockPortfolio,
    refresh_loop env stock_objs self
    = mkRun (loop_outcome (snd (rows_until env stock_objs)))
            (mkPortfolio (_stocks self ++ fst (rows_until env stock_objs))
                         (_stock_objs self) (data self))
            (requests_until env stock_objs).
Proof.
  induction stock_objs as [| s rest IH]; intros self.
  - destruct self as [rows objs df]. cbn. now rewrite app_nil_r.
  - cbn [refresh_loop rows_until requests_until].
    rewrite bind_run, get_stock_info_run. cbn [outcome final requests].
    destruct (row_of env s) as [info | e].
    + rewrite bind_run. cbn [stocks_append outcome final requests].
      rewrite IH. cbn [outcome final requests _stocks _stock_objs data app].
      destruct (rows_until env rest) as [rows err].
      cbn [fst snd]. now rewrite <- app_assoc.
    + destruct self as [rows objs df]. cbn. now rewrite app_nil_r.
Qed.

Lemma refresh_nothing (env : Env) (self : StockPortfolio) :
  _stock_objs self = [] ->
  refresh env self = mkRun (Return tt) self [].
Proof.
  intros Hobjs. unfold refresh. rewrite Hobjs. reflexivity.
Qed.

Lemma refresh_run (env : Env) (self : StockPortfolio) :
  _stock_objs self <> [] ->
  refresh env self
  = match snd (rows_until env (_stock_objs self)) with
    | None =>
        mkRun (Return tt)
              (mkPortfolio (fst (rows_until env (_stock_objs self)))
                           (_stock_objs self)
                           (Some (pd_DataFrame
                                    (fst (rows_until env (_stock_objs self))))))
              (requests_until env (_stock_objs self))
    | Some e =>
        mkRun (Raise e)
              (mkPortfolio (fst (rows_until env (_stock_objs self)))
                           (_stock_objs self) (data self))
              (requests_until env (_stock_objs self))
    end.
Proof.
  intros Hobjs. unfold refresh.
  replace (0 <? Z.of_nat (List.length (_stock_objs self)))%Z with true.
  2:{ symmetry. apply Z.ltb_lt.
      destruct (_stock_objs self); [congruence | cbn [List.length]; lia]. }
  rewrite bind_run. cbn [stocks_reset outcome final requests].
  rewrite bind_run, refresh_loop_run.
  cbn [outcome final requests _stocks _stock_objs data app].
  destruct (snd (rows_until env (_stock_objs self))) as [e |];
    cbn [loop_outcome]; [reflexivity |].
  cbn [data_rebuild outcome final requests _stocks _stock_objs data].
  now rewrite app_nil_r.
Qed.

(** ** The rows a refresh computes *)

Lemma rows_until_complete (env : Env) (stock_objs : list Stock.t) :
  snd (rows_until env stock_objs) = None ->
  Forall2 (fun info s => row_of env s = Return info)
          (fst (rows_until env stock_objs)) stock_objs.
Proof.
  induction stock_objs as [| s rest IH]; cbn [rows_until].
  - intros _. constructor.
  - destruct (row_of env s) as [info | e] eqn:Hrow; [| discriminate].
    destruct (rows_until env rest) as [rows err]. cbn [fst snd] in *.
    intros Herr. constructor; auto.
Qed.

Lemma rows_until_failed (env : Env) (stock_objs : list Stock.t)
    (e : Exception) :
  snd (rows_until env stock_objs) = Some e ->
  exists visited failing rest,
    stock_objs = visited ++ failing :: rest /\
    row_of env failing = Raise e /\
    Forall2 (fun info s => row_of env s = Return info)
            (fst (rows_until env stock_objs)) visited.
Proof.
  induction stock_objs as [| s rest IH]; cbn [rows_until].
  - discriminate.
  - destruct (row_of env s) as [info | e'] eqn:Hrow.
    + destruct (rows_until env rest) as [rows err]. cbn [fst snd] in *.
      intros Herr. destruct (IH Herr) as (visited & failing & rest' & -> & Hf & Hrows).
      exists (s :: visited), failing, rest'. repeat split; auto.
    + cbn [fst snd]. intros [= ->].
      exists [], s, rest. repeat split; auto.
Qed.

Lemma rows_until_ext (env1 env2 : Env) (stock_objs : list Stock.t) :
  (forall s, In s stock_objs -> row_of env1 s = row_of env2 s) ->
  rows_until env1 stock_objs = rows_until env2 stock_objs.
Proof.
  induction stock_objs as [| s rest IH]; intros Hsame; cbn [rows_until].
  - reflexivity.
  - rewrite <- (Hsame s (or_introl eq_refl)).
    rewrite IH by (intros s' Hin; apply Hsame; now right).
    reflexivity.
Qed.

Lemma requests_until_complete (env : Env) (stock_objs : list Stock.t) :
  snd (rows_until env stock_objs) = None ->
  requests_until env stock_objs = map (query_of env) stock_objs.
Proof.
  induction stock_objs as [| s rest IH];
    cbn [rows_until requests_until map]; [reflexivity |].
  destruct (row_of env s) as [info | e]; [| discriminate].
  destruct (rows_until env rest) as [rows err]. cbn [fst snd] in *.
  intros Herr. now rewrite IH.
Qed.

(** ** What every reachable portfolio satisfies *)

Lemma exec_rows_need_holdings (c : Call) (self : StockPortfolio) :
  rows_need_holdings self -> rows_need_holdings (final (exec c self)).
Proof.
  intros Hinv. destruct c as [env n c d k p | env]; cbn [exec].
  - destruct (add_stock_inv env n c d k p self); cbn [final]; auto;
      intros Hobjs; cbn [_stock_objs] in Hobjs;
      now destruct (app_cons_not_nil _ _ _ (eq_sym Hobjs)).
  - destruct (_stock_objs self) as [| s rest] eqn:Hobjs.
    + now rewrite refresh_nothing.
    + intros Hempty. exfalso. revert Hempty.
      rewrite refresh_run by congruence.
      destruct (snd (rows_until env (_stock_objs self)));
        cbn [final _stock_objs]; congruence.
Qed.

Lemma reachable_rows_need_holdings (self : StockPortfolio) :
  reachable self -> rows_need_holdings self.
Proof.
  induction 1 as [| c self _ IH].
  - intros _. split; reflexivity.
  - now apply exec_rows_need_holdings.
Qed.

Lemma run_calls_reachable (cs : list Call) :
  forall self, reachable self -> reachable (run_calls cs self).
Proof.
  induction cs as [| c rest IH]; intros self Hr; cbn [run_calls]; auto.
  apply IH. now constructor.
Qed.

(** Holdings are never removed. *)
Lemma exec_keeps_holdings (c : Call) (self : StockPortfolio)
    (s : Stock.t) :
  In s (_stock_objs self) -> In s (_stock_objs (final (exec c self))).
Proof.
  intros Hin. destruct c as [env n c d k p | env]; cbn [exec].
  - destruct (add_stock_inv env n c d k p self); cbn [final _stock_objs];
      auto; apply in_or_app; now left.
  - destruct (_stock_objs self) as [| s0 rest] eqn:Hobjs; [easy |].
    rewrite refresh_run by congruence.
    destruct (snd (rows_until env (_stock_objs self)));
      cbn [final _stock_objs]; now rewrite Hobjs.
Qed.

Lemma run_calls_keeps_holdings (cs : list Call) (s : Stock.t) :
  forall self,
    In s (_stock_objs self) -> In s (_stock_objs (run_calls cs self)).
Proof.
  induction cs as [| c rest IH]; intros self Hin; cbn [run_calls]; auto.
  apply IH. now apply exec_keeps_holdings.
Qed.

(** ** The pure helpers *)

Lemma iloc_last_snoc (earlier : list Bar) (latest : Bar) :
  iloc_last (earlier ++ [latest]) = Return latest.
Proof.
  induction earlier as [| b rest IH]; [reflexivity |].
  cbn [app iloc_last]. rewrite IH.
  destruct (rest ++ [latest])%list eqn:E; [| reflexivity].
  now destruct (app_cons_not_nil _ _ _ (eq_sym E)).
Qed.

Lemma chronological_latest (earlier : list Bar) (latest : Bar) :
  chronological (earlier ++ [latest]) ->
  Forall (fun b => (Date b <= Date latest)%Z) (earlier ++ [latest]).
Proof.
  intros Hsorted.
  assert (Hstrong :
            StronglySorted (fun a b => (Date a <= Date b)%Z)
                           (earlier ++ [latest])).
  { apply Sorted_StronglySorted; [| exact Hsorted].
    intros a b c Hab Hbc. lia. }
  clear Hsorted. induction earlier as [| b rest IH].
  - repeat constructor. lia.
  - cbn [app] in *. inversion Hstrong as [| ? ? Hrest Hb]; subst.
    constructor; [| now apply IH].
    rewrite Forall_forall in Hb. apply Hb, in_or_app. right. now left.
Qed.

(** C4.  On every non-empty price series [current_price] returns the
    [Close] of the entry in last position, which in a chronologically
    ordered series is the entry with the latest date; on the series
    without rows it raises [IndexError] and returns no value at all. *)
Theorem current_price_last_close (series : list Bar) :
  (series <> [] ->
   exists earlier latest,
     series = (earlier ++ [latest])%list /\
     current_price series = Return (Close latest) /\
     (chronological series ->
      Forall (fun b => (Date b <= Date latest)%Z) series)) /\
  (series = [] ->
   current_price series
   = Raise (IndexError "single positional indexer is out-of-bounds") /\
   forall price, current_price series <> Return price).
Proof.
  split.
  - intros Hne.
    destruct (exists_last Hne) as (earlier & latest & ->).
    exists earlier, latest. split; [reflexivity |]. split.
    + unfold current_price. now rewrite iloc_last_snoc.
    + apply chronological_latest.
  - intros ->. split; [reflexivity | discriminate].
Qed.

Lemma current_price_last_close_witness :
  acme_series <> [] /\
  exists earlier latest,
    acme_series = (earlier ++ [latest])%list /\
    current_price acme_series = Return (Close latest) /\
    (chronological acme_series ->
     Forall (fun b => (Date b <= Date latest)%Z) acme_series).
Proof.
  split; [discriminate |].
  apply (proj1 (current_price_last_close acme_series)). discriminate.
Defined.

Lemma shr_1_nonneg (mrs : shr_record) :
  0 <= shr_m mrs -> 0 <= shr_m (shr_1 mrs).
Proof.
  destruct mrs as [m r s]. cbn [shr_m]. intros Hm.
  destruct m as [| [q | q |] | q]; cbn; lia.
Qed.

Lemma iter_shr_1_nonneg (steps : positive) :
  forall mrs, 0 <= shr_m mrs -> 0 <= shr_m (iter_pos shr_1 steps mrs).
Proof.
  induction steps as [q IH | q IH |]; intros mrs Hm; cbn [iter_pos].
  - apply IH, IH, shr_1_nonneg, Hm.
  - apply IH, IH, Hm.
  - now apply shr_1_nonneg.
Qed.

Lemma shr_fexp_nonneg (m e : Z) (l : location) :
  0 <= m -> 0 <= shr_m (fst (shr_fexp mant_dig max_exp m e l)).
Proof.
  intros Hm. unfold shr_fexp, shr.
  assert (H0 : 0 <= shr_m (shr_record_of_loc m l))
    by (destruct l as [| []]; exact Hm).
  destruct (fexp mant_dig max_exp (Zdigits2 m + e) - e); cbn [fst]; auto.
  now apply iter_shr_1_nonneg.
Qed.

(** Rounding a non-negative mantissa gives a zero, a finite number or an
    infinity, never NaN. *)
Lemma binary_round_aux_not_nan (s : bool) (m e : Z) (l : location) :
  0 <= m -> binary_round_aux mant_dig max_exp s m e l <> S754_nan.
Proof.
  intros Hm. unfold binary_round_aux.
  pose proof (shr_fexp_nonneg m e l Hm) as H1.
  destruct (shr_fexp mant_dig max_exp m e l) as [mrs' e']. cbn [fst] in H1.
  assert (H2 : 0 <= round_nearest_even (shr_m mrs')
                                       (loc_of_shr_record mrs')).
  { unfold round_nearest_even.
    destruct (loc_of_shr_record mrs') as [| []]; try lia.
    destruct (Z.even (shr_m mrs')); lia. }
  pose proof (shr_fexp_nonneg _ e' loc_Exact H2) as H3.
  destruct (shr_fexp mant_dig max_exp _ e' loc_Exact) as [mrs'' e''].
  cbn [fst] in H3.
  destruct (shr_m mrs'') as [| q | q]; try discriminate; [| lia].
  destruct (e'' <=? max_exp - mant_dig); discriminate.
Qed.

Lemma float_of_Z_not_nan (n : Z) : float_of_Z n <> S754_nan.
Proof.
  unfold float_of_Z, binary_normalize, binary_round.
  destruct n as [| m | m]; [discriminate | |];
    destruct (shl_align m 0 _) as [mz ez];
    apply binary_round_aux_not_nan; lia.
Qed.

(** An integer that converts becomes a zero or a finite float. *)
Lemma int_to_float_finite (n : Z) (shares : float) :
  int_to_float n = Return shares -> is_finite shares = true.
Proof.
  unfold int_to_float. pose proof (float_of_Z_not_nan n) as Hnan.
  destruct (float_of_Z n); intros [= <-]; [reflexivity | | reflexivity].
  congruence.
Qed.

(** C6, as the code has it.  For every price [p] and share count [n]:
    when [n] is within the range of [float], [gross_current_value p n] is
    the binary64 product of [p] and the float nearest to [n], rounded to
    nearest; it is a zero when [p] is a zero, and when [n = 0] and [p] is
    finite.  When [n] is beyond the range of [float] the call raises
    [OverflowError], whatever the price. *)
Theorem gross_current_value_product (p : float) (n : Z) :
  (forall shares,
     int_to_float n = Return shares ->
     gross_current_value p n = Return (float_mul p shares) /\
     (is_zero p = true -> is_zero (float_mul p shares) = true)) /\
  (n = 0 -> is_finite p = true ->
   exists z, gross_current_value p n = Return z /\ is_zero z = true) /\
  (forall e,
     int_to_float n = Raise e ->
     e = OverflowError "int too large to convert to float" /\
     gross_current_value p n = Raise e).
Proof.
  split; [| split].
  - intros shares Hconv. unfold gross_current_value. rewrite Hconv.
    split; [reflexivity |].
    pose proof (int_to_float_finite n shares Hconv) as Hfin.
    destruct p; try discriminate. intros _.
    destruct shares; try discriminate; reflexivity.
  - intros -> Hfin. unfold gross_current_value.
    change (int_to_float 0) with (Return (S754_zero false)).
    exists (float_mul p (S754_zero false)). split; [reflexivity |].
    destruct p; try discriminate; reflexivity.
  - intros e Hconv. unfold gross_current_value. rewrite Hconv.
    split; [| reflexivity].
    unfold int_to_float in Hconv.
    destruct (float_of_Z n); congruence.
Qed.

Lemma gross_current_value_product_witness :
  gross_current_value (float_of_Z 150) 10 = Return (float_of_Z 1500) /\
  (exists z,
     gross_current_value (float_of_Z 150) 0 = Return z /\
     is_zero z = true) /\
  gross_current_value one_tenth 3
  = Return (S754_finite false 5404319552844596 (-54)).
Proof.
  split; [| split].
  - exact (proj1 (proj1 (gross_current_value_product (float_of_Z 150) 10)
                        (float_of_Z 10) eq_refl)).
  - exact (proj1 (proj2 (gross_current_value_product (float_of_Z 150) 0))
                 eq_refl eq_refl).
  - exact (proj1 (proj1 (gross_current_value_product one_tenth 3)
                        (float_of_Z 3) eq_refl)).
Defined.

(** C6 fails on the code: at the price [0.0] and the share count
    [10 ** 400] the call raises [OverflowError] and returns no [0]; and at
    the price [0.1] and the share count [3] it returns the float
    [5404319552844596 * 2 ** -54], which is not the product of [0.1],
    that is [7205759403792794 * 2 ** -56], by [3]. *)
Lemma gross_current_value_not_the_product :
  gross_current_value (S754_zero false) (10 ^ 400)
  = Raise (OverflowError "int too large to convert to float") /\
  gross_current_value one_tenth 3
  = Return (S754_finite false 5404319552844596 (-54)) /\
  5404319552844596 * 2 ^ 2 <> 7205759403792794 * 3.
Proof.
  split; [vm_compute; reflexivity | split; [reflexivity | discriminate]].
Qed.

(** ** refresh without holdings *)

(** C7.  On a portfolio without holdings [refresh] returns normally,
    sends no request to the provider and leaves the portfolio as it was;
    such a portfolio has no rows and its snapshot is [None], before the
    call and after it. *)
Theorem refresh_empty_noop (env : Env) (self : StockPortfolio) :
  reachable self ->
  _stock_objs self = [] ->
  refresh env self = mkRun (Return tt) self [] /\
  _stocks (final (refresh env self)) = [] /\
  data (final (refresh env self)) = None.
Proof.
  intros Hreach Hempty.
  rewrite (refresh_nothing env self Hempty). cbn [final].
  split; [reflexivity |].
  exact (reachable_rows_need_holdings self Hreach Hempty).
Qed.

Lemma refresh_empty_noop_witness :
  refresh env_ok init = mkRun (Return tt) init [] /\
  _stocks (final (refresh env_ok init)) = [] /\
  data (final (refresh env_ok init)) = None.
Proof.
  apply (refresh_empty_noop env_ok init).
  - exact reachable_init.
  - reflexivity.
Defined.

(** ** Calls that raise *)

(** C1, as the code has it.  When [add_stock] raises, the row list and
    the snapshot are what they were before the call.  When the catalog
    rejected the holding the whole portfolio is untouched and no request
    was sent; when the round trip for the row failed after validation,
    the holdings list has the new holding appended. *)
Theorem add_stock_failure_state (env : Env) (n c d : string) (k : Z)
    (p : float) (self : StockPortfolio) (e : Exception) :
  outcome (add_stock env n c d k p self) = Raise e ->
  _stocks (final (add_stock env n c d k p self)) = _stocks self /\
  data (final (add_stock env n c d k p self)) = data self /\
  (Stock.valid (holding_of env n c d k p) = false ->
   final (add_stock env n c d k p self) = self /\
   requests (add_stock env n c d k p self) = []) /\
  (Stock.valid (holding_of env n c d k p) = true ->
   row_of env (holding_of env n c d k p) = Raise e /\
   _stock_objs (final (add_stock env n c d k p self))
   = (_stock_objs self ++ [holding_of env n c d k p])%list).
Proof.
  destruct (add_stock_inv env n c d k p self) as [Hv | e' Hv Hrow | info Hv Hrow];
    cbn [outcome final requests _stocks _stock_objs data].
  - intros _. repeat split; auto. all: congruence.
  - intros [= ->]. repeat split; auto. all: congruence.
  - discriminate.
Qed.

Lemma add_stock_failure_state_witness :
  outcome (add_stock env_no_data "ACME" "US" "01/01/2020" 10 (float_of_Z 100)
                     acme_portfolio)
  = Raise (IndexError "single positional indexer is out-of-bounds") /\
  _stocks (final (add_stock env_no_data "ACME" "US" "01/01/2020" 10
                            (float_of_Z 100) acme_portfolio))
  = _stocks acme_portfolio /\
  data (final (add_stock env_no_data "ACME" "US" "01/01/2020" 10
                         (float_of_Z 100) acme_portfolio))
  = data acme_portfolio.
Proof.
  split; [reflexivity |].
  pose proof
    (add_stock_failure_state env_no_data "ACME" "US" "01/01/2020" 10
       (float_of_Z 100) acme_portfolio
       (IndexError "single positional indexer is out-of-bounds")
       eq_refl) as (Hrows & Hdata & _).
  exact (conj Hrows Hdata).
Defined.

(** C1 fails on the code: the provider has no rows for a holding the
    catalog accepts, [add_stock] raises, and the holdings list of the new
    portfolio is no longer empty. *)
Lemma add_stock_failure_not_atomic :
  outcome (add_stock env_no_data "ACME" "US" "01/01/2020" 10 (float_of_Z 100) init)
  = Raise (IndexError "single positional indexer is out-of-bounds") /\
  _stock_objs
    (final (add_stock env_no_data "ACME" "US" "01/01/2020" 10 (float_of_Z 100)
                      init))
  = [Stock.mk "ACME" "US" "01/01/2020" 10 (float_of_Z 100) true] /\
  final (add_stock env_no_data "ACME" "US" "01/01/2020" 10 (float_of_Z 100) init)
  <> init.
Proof.
  split; [reflexivity | split; [reflexivity | discriminate]].
Qed.

Lemma rows_until_stops (env : Env) (stock_objs : list Stock.t)
    (s : Stock.t) (e : Exception) :
  In s stock_objs ->
  row_of env s = Raise e ->
  exists e', snd (rows_until env stock_objs) = Some e'.
Proof.
  induction stock_objs as [| s0 rest IH]; cbn [In rows_until]; [easy |].
  intros Hin Hrow.
  destruct (row_of env s0) as [info | e0] eqn:Hrow0.
  - destruct Hin as [-> | Hin]; [congruence |].
    destruct (IH Hin Hrow) as (e' & He').
    destruct (rows_until env rest) as [rows err]. cbn [snd] in *.
    now exists e'.
  - now exists e0.
Qed.

(** C3, as the code has it.  When the round trip fails for one of the
    holdings, [refresh] raises the exception of the first holding that
    fails; the snapshot and the holdings list are what they were before
    the call, and the row list now holds the rows recomputed for the
    holdings that precede the failing one, and nothing else. *)
Theorem refresh_failure_state (env : Env) (self : StockPortfolio)
    (s : Stock.t) (e0 : Exception) :
  In s (_stock_objs self) ->
  row_of env s = Raise e0 ->
  exists e visited failing rest,
    outcome (refresh env self) = Raise e /\
    data (final (refresh env self)) = data self /\
    _stock_objs (final (refresh env self)) = _stock_objs self /\
    _stock_objs self = (visited ++ failing :: rest)%list /\
    row_of env failing = Raise e /\
    Forall2 (fun info s => row_of env s = Return info)
            (_stocks (final (refresh env self))) visited.
Proof.
  intros Hin Hrow.
  assert (Hne : _stock_objs self <> [])
    by (intros Hnil; rewrite Hnil in Hin; exact Hin).
  destruct (rows_until_stops env _ s e0 Hin Hrow) as (e & Herr).
  destruct (rows_until_failed env _ e Herr)
    as (visited & failing & rest & Hsplit & Hfail & Hrows).
  exists e, visited, failing, rest.
  rewrite (refresh_run env self Hne), Herr.
  cbn [outcome final _stocks _stock_objs data]. auto 6.
Qed.

Lemma refresh_failure_state_witness :
  exists e visited failing rest,
    outcome (refresh env_down acme_portfolio) = Raise e /\
    data (final (refresh env_down acme_portfolio)) = data acme_portfolio /\
    _stock_objs (final (refresh env_down acme_portfolio))
    = _stock_objs acme_portfolio /\
    _stock_objs acme_portfolio = (visited ++ failing :: rest)%list /\
    row_of env_down failing = Raise e /\
    Forall2 (fun info s => row_of env_down s = Return info)
            (_stocks (final (refresh env_down acme_portfolio))) visited.
Proof.
  apply (refresh_failure_state env_down acme_portfolio
           (Stock.mk "ACME" "US" "01/01/2020" 10 (float_of_Z 100) true)
           (ConnectionError "provider unreachable")).
  - left. reflexivity.
  - reflexivity.
Defined.

(** C3 fails on the code: the provider is unreachable when a portfolio
    with one recorded holding is refreshed; [refresh] raises, the snapshot
    still shows the row, and the row list has been emptied. *)
Lemma refresh_failure_loses_rows :
  reachable acme_portfolio /\
  outcome (refresh env_down acme_portfolio)
  = Raise (ConnectionError "provider unreachable") /\
  data (final (refresh env_down acme_portfolio)) = data acme_portfolio /\
  _stocks acme_portfolio <> [] /\
  _stocks (final (refresh env_down acme_portfolio)) = [] /\
  final (refresh env_down acme_portfolio) <> acme_portfolio.
Proof.
  split; [apply run_calls_reachable, reachable_init |].
  split; [reflexivity | split; [reflexivity |]].
  split; [discriminate | split; [reflexivity | discriminate]].
Qed.

(** ** Rows and holdings in lockstep *)

Lemma refresh_completed_rows (env : Env) (self : StockPortfolio) :
  reachable self ->
  outcome (refresh env self) = Return tt ->
  Forall2 (fun info s => row_of env s = Return info)
          (_stocks (final (refresh env self)))
          (_stock_objs (final (refresh env self))).
Proof.
  intros Hreach.
  destruct (_stock_objs self) as [| s0 rest0] eqn:Hobjs.
  - rewrite (refresh_nothing env self Hobjs). cbn [final]. intros _.
    destruct (reachable_rows_need_holdings self Hreach Hobjs) as [-> _].
    rewrite Hobjs. constructor.
  - rewrite refresh_run by congruence.
    destruct (snd (rows_until env (_stock_objs self))) as [e |] eqn:Herr;
      cbn [outcome final _stocks _stock_objs]; [discriminate |].
    intros _. now apply rows_until_complete.
Qed.

(** Rows against holdings across one call: never more rows than holdings,
    and once there are fewer there are fewer until a [refresh]
    completes. *)
Lemma exec_rows_vs_holdings (c : Call) (self : StockPortfolio) :
  (List.length (_stocks self) <= List.length (_stock_objs self))%nat ->
  (List.length (_stocks (final (exec c self)))
   <= List.length (_stock_objs (final (exec c self))))%nat /\
  ((List.length (_stocks self) < List.length (_stock_objs self))%nat ->
   is_add c || negb (completed (outcome (exec c self))) = true ->
   (List.length (_stocks (final (exec c self)))
    < List.length (_stock_objs (final (exec c self))))%nat).
Proof.
  intros Hle. destruct c as [env n c d k p | env]; cbn [exec is_add orb].
  - destruct (add_stock_inv env n c d k p self);
      cbn [final _stocks _stock_objs]; rewrite ?length_app;
      cbn [List.length]; split; intros; lia.
  - destruct (_stock_objs self) as [| s0 rest0] eqn:Hobjs.
    + rewrite (refresh_nothing env self Hobjs). cbn [final outcome].
      rewrite Hobjs. cbn [List.length] in *. split; intros; lia.
    + rewrite refresh_run by congruence. rewrite Hobjs.
      destruct (snd (rows_until env (s0 :: rest0))) as [e |] eqn:Herr;
        cbn [final outcome completed negb _stocks _stock_objs].
      * destruct (rows_until_failed env _ e Herr)
          as (visited & failing & rest & Hsplit & _ & Hrows).
        apply Forall2_length in Hrows. rewrite Hrows, Hsplit, length_app.
        cbn [List.length]. split; intros; lia.
      * pose proof (Forall2_length (rows_until_complete env _ Herr)) as Hlen.
        rewrite Hlen. split; [lia | discriminate].
Qed.

Lemma reachable_rows_at_most_holdings (self : StockPortfolio) :
  reachable self ->
  (List.length (_stocks self) <= List.length (_stock_objs self))%nat.
Proof.
  induction 1 as [| c self _ IH]; [cbn; lia |].
  now apply exec_rows_vs_holdings.
Qed.

Lemma run_calls_rows_stay_short (cs : list Call) :
  forall self : StockPortfolio,
    (List.length (_stocks self) < List.length (_stock_objs self))%nat ->
    no_refresh_completed cs self = true ->
    (List.length (_stocks (run_calls cs self))
     < List.length (_stock_objs (run_calls cs self)))%nat.
Proof.
  induction cs as [| c rest IH]; intros self Hlt Hquiet;
    cbn [run_calls no_refresh_completed] in *; [exact Hlt |].
  apply andb_prop in Hquiet as [Hc Hrest].
  apply IH; [| exact Hrest].
  apply exec_rows_vs_holdings; [lia | exact Hlt | exact Hc].
Qed.

(** C2, as the code has it.  On a portfolio a client can reach: a
    completed [refresh] leaves as many rows as holdings, row [i] being the
    row just computed from holding [i]; a completed [add_stock] leaves the
    two lists in lockstep when they were in lockstep before the call; and
    after an [add_stock] that raised past validation there are fewer rows
    than holdings, so no lockstep, after any further calls as long as no
    [refresh] completes. *)
Theorem lockstep_after_completed_call (self : StockPortfolio) :
  reachable self ->
  (forall env,
     outcome (refresh env self) = Return tt ->
     Forall2 (fun info s => row_of env s = Return info)
             (_stocks (final (refresh env self)))
             (_stock_objs (final (refresh env self))) /\
     lockstep (final (refresh env self)) /\
     List.length (_stocks (final (refresh env self)))
     = List.length (_stock_objs (final (refresh env self)))) /\
  (forall env n c d k p,
     lockstep self ->
     outcome (add_stock env n c d k p self) = Return tt ->
     lockstep (final (add_stock env n c d k p self)) /\
     List.length (_stocks (final (add_stock env n c d k p self)))
     = List.length (_stock_objs (final (add_stock env n c d k p self)))) /\
  (forall env n c d k p e cs,
     Stock.valid (holding_of env n c d k p) = true ->
     outcome (add_stock env n c d k p self) = Raise e ->
     no_refresh_completed cs (final (add_stock env n c d k p self)) = true ->
     (List.length
        (_stocks (run_calls cs (final (add_stock env n c d k p self))))
      < List.length
          (_stock_objs (run_calls cs (final (add_stock env n c d k p self)))))%nat /\
     ~ lockstep (run_calls cs (final (add_stock env n c d k p self)))).
Proof.
  intros Hreach. split; [| split].
  - intros env Hdone.
    pose proof (refresh_completed_rows env self Hreach Hdone) as Hrows.
    assert (Hlock : lockstep (final (refresh env self))).
    { unfold lockstep. eapply Forall2_impl; [| exact Hrows].
      intros info s Hrow. now exists env. }
    split; [exact Hrows | split; [exact Hlock |]].
    exact (Forall2_length Hlock).
  - intros env n c d k p Hlock.
    destruct (add_stock_inv env n c d k p self) as [| | info Hv Hrow];
      cbn [outcome]; try discriminate.
    intros _.
    assert (Hfinal :
              lockstep
                (mkPortfolio (_stocks self ++ [info])
                   (_stock_objs self ++ [holding_of env n c d k p])
                   (Some (pd_DataFrame (_stocks self ++ [info]))))).
    { unfold lockstep. cbn [_stocks _stock_objs].
      apply Forall2_app; [exact Hlock |].
      constructor; [| constructor]. now exists env. }
    cbn [final]. split; [exact Hfinal | exact (Forall2_length Hfinal)].
  - intros env n c d k p e cs Hv Hraise Hquiet.
    assert (Hshort :
              (List.length (_stocks (final (add_stock env n c d k p self)))
               < List.length
                   (_stock_objs (final (add_stock env n c d k p self))))%nat).
    { pose proof (reachable_rows_at_most_holdings self Hreach) as Hle.
      revert Hraise.
      destruct (add_stock_inv env n c d k p self) as [Hv' | |];
        cbn [outcome final _stocks _stock_objs];
        [congruence | | discriminate].
      intros _. rewrite length_app. cbn [List.length]. lia. }
    pose proof (run_calls_rows_stay_short cs _ Hshort Hquiet) as Hlater.
    split; [exact Hlater |].
    intros Hlock. apply Forall2_length in Hlock. lia.
Qed.

Lemma lockstep_after_completed_call_witness :
  lockstep acme_portfolio /\
  lockstep
    (final (add_stock env_ok "BBVA" "spain" "02/01/2020" 5 (float_of_Z 4)
                      acme_portfolio)) /\
  lockstep (final (refresh env_ok acme_portfolio)) /\
  ~ lockstep
      (run_calls
         [AddStock env_ok "BBVA" "spain" "02/01/2020" 5 (float_of_Z 4);
          Refresh env_down]
         (final (add_stock env_no_data "SAN" "spain" "03/01/2020" 7
                           (float_of_Z 3) acme_portfolio))).
Proof.
  assert (Hlock : lockstep acme_portfolio).
  { unfold lockstep. repeat constructor. now exists env_ok. }
  destruct (lockstep_after_completed_call acme_portfolio
              (run_calls_reachable _ init reachable_init))
    as (Hrefresh & Hadd & Hfailed).
  split; [exact Hlock | split; [| split]].
  - exact (proj1 (Hadd env_ok "BBVA"%string "spain"%string
                       "02/01/2020"%string 5 (float_of_Z 4) Hlock eq_refl)).
  - exact (proj1 (proj2 (Hrefresh env_ok eq_refl))).
  - exact (proj2 (Hfailed env_no_data "SAN"%string "spain"%string
                          "03/01/2020"%string 7 (float_of_Z 3)
                          (IndexError
                             "single positional indexer is out-of-bounds")
                          [AddStock env_ok "BBVA" "spain" "02/01/2020" 5
                                    (float_of_Z 4);
                           Refresh env_down]
                          eq_refl eq_refl eq_refl)).
Defined.

(** C2 fails on the code: a first [add_stock] raises in the price fetch
    and leaves its holding behind; the next [add_stock] completes, and the
    portfolio then has two holdings and one row. *)
Lemma completed_add_out_of_lockstep :
  outcomes [AddStock env_no_data "ACME" "US" "01/01/2020" 10 (float_of_Z 100);
            AddStock env_ok "BBVA" "spain" "02/01/2020" 5 (float_of_Z 4)] init
  = [Raise (IndexError "single positional indexer is out-of-bounds");
     Return tt] /\
  List.length
    (_stocks
       (run_calls
          [AddStock env_no_data "ACME" "US" "01/01/2020" 10 (float_of_Z 100);
           AddStock env_ok "BBVA" "spain" "02/01/2020" 5 (float_of_Z 4)] init))
  = 1%nat /\
  List.length
    (_stock_objs
       (run_calls
          [AddStock env_no_data "ACME" "US" "01/01/2020" 10 (float_of_Z 100);
           AddStock env_ok "BBVA" "spain" "02/01/2020" 5 (float_of_Z 4)] init))
  = 2%nat.
Proof.
  split; [reflexivity | split; reflexivity].
Qed.

(** ** Histories of successful adds *)

Lemma add_stock_rows_from (cs : list Call) :
  forall self : StockPortfolio,
    forallb is_add cs = true ->
    forallb completed (outcomes cs self) = true ->
    exists rows,
      _stocks (run_calls cs self) = (_stocks self ++ rows)%list /\
      Forall2 (fun info c => row_of_call c = Return info) rows cs.
Proof.
  induction cs as [| c rest IH]; intros self Hadds Hdone.
  - exists []. cbn [run_calls]. split; [now rewrite app_nil_r | constructor].
  - cbn [forallb outcomes run_calls] in *.
    apply andb_prop in Hadds as [Hadd Hadds].
    apply andb_prop in Hdone as [Hc Hdone].
    destruct (IH _ Hadds Hdone) as (rows & Hrows & Hall).
    destruct c as [env n c d k p | env]; [| discriminate].
    cbn [exec] in *.
    destruct (add_stock_inv env n c d k p self) as [| |info Hv Hrow];
      try discriminate.
    cbn [final _stocks] in Hrows |- *.
    exists (info :: rows). split.
    + now rewrite Hrows, <- app_assoc.
    + constructor; [exact Hrow | exact Hall].
Qed.

(** C5.  After a sequence of [add_stock] calls on a new portfolio, all of
    which succeeded, there are as many rows as calls and the row in
    position [i] is the row of the [i]-th call: its holding fields are the
    arguments of that call and its price is the one fetched by that
    call. *)
Theorem add_stock_rows_follow_calls (cs : list Call) :
  forallb is_add cs = true ->
  forallb completed (outcomes cs init) = true ->
  List.length (_stocks (run_calls cs init)) = List.length cs /\
  Forall2 (fun info c => row_of_call c = Return info)
          (_stocks (run_calls cs init)) cs.
Proof.
  intros Hadds Hdone.
  destruct (add_stock_rows_from cs init Hadds Hdone) as (rows & Hrows & Hall).
  cbn [init _stocks app] in Hrows. rewrite Hrows.
  split; [exact (Forall2_length Hall) | exact Hall].
Qed.

Lemma add_stock_rows_follow_calls_witness :
  List.length
    (_stocks
       (run_calls
          [AddStock env_ok "ACME" "US" "01/01/2020" 10 (float_of_Z 100);
           AddStock env_ok "BBVA" "spain" "02/01/2020" 5 (float_of_Z 4)] init))
  = 2%nat /\
  Forall2 (fun info c => row_of_call c = Return info)
    (_stocks
       (run_calls
          [AddStock env_ok "ACME" "US" "01/01/2020" 10 (float_of_Z 100);
           AddStock env_ok "BBVA" "spain" "02/01/2020" 5 (float_of_Z 4)] init))
    [AddStock env_ok "ACME" "US" "01/01/2020" 10 (float_of_Z 100);
     AddStock env_ok "BBVA" "spain" "02/01/2020" 5 (float_of_Z 4)].
Proof.
  apply (add_stock_rows_follow_calls
           [AddStock env_ok "ACME" "US" "01/01/2020" 10 (float_of_Z 100);
            AddStock env_ok "BBVA" "spain" "02/01/2020" 5 (float_of_Z 4)]);
    reflexivity.
Defined.

Lemma row_of_fields (env : Env) (stock : Stock.t) (info : Info.t) :
  row_of env stock = Return info ->
  Info.stock_name info = Stock.stock_name stock /\
  Info.stock_country info = Stock.stock_country stock /\
  Info.purchase_date info = Stock.purchase_date stock /\
  Info.num_of_shares info = Stock.num_of_shares stock /\
  Info.cost_per_share info = Stock.cost_per_share stock /\
  (exists rows,
     get_historical_data env (query_of env stock) = Frame rows /\
     current_price rows = Return (Info.current_price info)) /\
  gross_current_value (Info.current_price info) (Stock.num_of_shares stock)
  = Return (Info.gross_current_value info).
Proof.
  unfold row_of.
  destruct (get_historical_data env (query_of env stock)) as [e | rows];
    [discriminate |].
  destruct (current_price rows) as [price | e] eqn:Hprice; [| discriminate].
  destruct (gross_current_value price (Stock.num_of_shares stock))
    as [gross | e] eqn:Hgross; [| discriminate].
  intros [= <-]. cbn. repeat split; [now exists rows | exact Hgross].
Qed.

(** ** Refreshing twice *)

Lemma row_of_same_answer (env1 env2 : Env) (s : Stock.t) :
  get_historical_data env1 (query_of env1 s)
  = get_historical_data env2 (query_of env2 s) ->
  row_of env1 s = row_of env2 s.
Proof.
  intros Hsame. unfold row_of. now rewrite Hsame.
Qed.

(** C8.  When the provider answers the second of two consecutive
    [refresh] calls, for every holding, as it answered the first, the
    snapshot after the second call is the snapshot after the first; so
    are the rows, the holdings and the outcome of the call. *)
Theorem refresh_idempotent (env1 env2 : Env) (self : StockPortfolio) :
  (forall s, In s (_stock_objs self) ->
     get_historical_data env1 (query_of env1 s)
     = get_historical_data env2 (query_of env2 s)) ->
  data (final (refresh env2 (final (refresh env1 self))))
  = data (final (refresh env1 self)) /\
  final (refresh env2 (final (refresh env1 self)))
  = final (refresh env1 self) /\
  outcome (refresh env2 (final (refresh env1 self)))
  = outcome (refresh env1 self).
Proof.
  intros Hsame.
  assert (Hrows : rows_until env2 (_stock_objs self)
                  = rows_until env1 (_stock_objs self)).
  { apply rows_until_ext. intros s Hin. symmetry.
    now apply row_of_same_answer, Hsame. }
  assert (Hgoal :
            final (refresh env2 (final (refresh env1 self)))
            = final (refresh env1 self) /\
            outcome (refresh env2 (final (refresh env1 self)))
            = outcome (refresh env1 self)).
  { destruct (_stock_objs self) as [| s0 rest0] eqn:Hobjs.
    - rewrite (refresh_nothing env1 self Hobjs). cbn [final outcome].
      now rewrite (refresh_nothing env2 self Hobjs).
    - assert (Hne : _stock_objs self <> []) by congruence.
      rewrite <- Hobjs in Hrows.
      rewrite (refresh_run env1 self Hne).
      destruct (snd (rows_until env1 (_stock_objs self))) as [e |] eqn:Herr;
        cbn [final outcome].
      + rewrite refresh_run by (cbn [_stock_objs]; exact Hne).
        cbn [_stock_objs data]. rewrite Hrows, Herr. now cbn [final outcome].
      + rewrite refresh_run by (cbn [_stock_objs]; exact Hne).
        cbn [_stock_objs data]. rewrite Hrows, Herr. now cbn [final outcome]. }
  destruct Hgoal as [Hfinal Hout].
  split; [now rewrite Hfinal | split; assumption].
Qed.

Lemma refresh_idempotent_witness :
  data (final (refresh env_ok (final (refresh env_ok acme_portfolio))))
  = data (final (refresh env_ok acme_portfolio)) /\
  data (final (refresh env_ok acme_portfolio))
  = Some (pd_DataFrame
            [Info.mk "ACME" "US" "01/01/2020" 10 (float_of_Z 100) (float_of_Z 150)
                     (float_of_Z 1500)]).
Proof.
  split.
  - apply (refresh_idempotent env_ok env_ok acme_portfolio).
    intros s _. reflexivity.
  - reflexivity.
Defined.

(** ** A holding left behind by a failed add *)

Lemma Forall2_In_r {A B : Type} (R : A -> B -> Prop) (xs : list A)
    (ys : list B) (y : B) :
  Forall2 R xs ys -> In y ys -> exists x, In x xs /\ R x y.
Proof.
  induction 1 as [| x y' xs ys Hxy _ IH]; cbn [In]; [easy |].
  intros [-> | Hin].
  - exists x. auto.
  - destruct (IH Hin) as (x' & Hx' & HR). exists x'. auto.
Qed.

(** C9.  When [add_stock] raises although the catalog accepted the
    holding, the round trip for its row failed: the holding is already at
    the end of the holdings list and no row was recorded for it.  It
    stays in the list through whatever calls follow, and a later
    [refresh] that completes sends a request for it and puts its row in
    the snapshot. *)
Theorem failed_add_holding_refreshed (env : Env) (n c d : string) (k : Z)
    (p : float) (self : StockPortfolio) (e : Exception) (cs : list Call)
    (env2 : Env) :
  Stock.valid (holding_of env n c d k p) = true ->
  outcome (add_stock env n c d k p self) = Raise e ->
  _stock_objs (final (add_stock env n c d k p self))
  = (_stock_objs self ++ [holding_of env n c d k p])%list /\
  _stocks (final (add_stock env n c d k p self)) = _stocks self /\
  In (holding_of env n c d k p)
     (_stock_objs (run_calls cs (final (add_stock env n c d k p self)))) /\
  (outcome (refresh env2
              (run_calls cs (final (add_stock env n c d k p self))))
   = Return tt ->
   In (query_of env2 (holding_of env n c d k p))
      (requests (refresh env2
                   (run_calls cs (final (add_stock env n c d k p self))))) /\
   exists info rows,
     row_of env2 (holding_of env n c d k p) = Return info /\
     In info rows /\
     data (final (refresh env2
                    (run_calls cs (final (add_stock env n c d k p self)))))
     = Some (pd_DataFrame rows)).
Proof.
  intros Hv.
  destruct (add_stock_inv env n c d k p self) as [Hv' | e' _ _ | info _ _];
    cbn [outcome final _stocks _stock_objs];
    [congruence | intros _ | discriminate].
  set (left_behind :=
         mkPortfolio (_stocks self)
                     (_stock_objs self ++ [holding_of env n c d k p])
                     (data self)).
  assert (Hin : In (holding_of env n c d k p)
                   (_stock_objs (run_calls cs left_behind))).
  { apply run_calls_keeps_holdings. cbn [left_behind _stock_objs].
    apply in_or_app. right. now left. }
  set (later := run_calls cs left_behind) in *.
  assert (Hne : _stock_objs later <> [])
    by (intros Hnil; rewrite Hnil in Hin; exact Hin).
  split; [reflexivity | split; [reflexivity | split; [exact Hin |]]].
  rewrite refresh_run by exact Hne.
  destruct (snd (rows_until env2 (_stock_objs later))) eqn:Herr;
    cbn [outcome final requests data]; [discriminate |].
  intros _. split.
  - rewrite requests_until_complete by exact Herr. now apply in_map.
  - destruct (Forall2_In_r _ _ _ _ (rows_until_complete env2 _ Herr) Hin)
      as (info & Hinfo & Hrow).
    exists info, (fst (rows_until env2 (_stock_objs later))). auto.
Qed.

Lemma failed_add_holding_refreshed_witness :
  In (Stock.mk "ACME" "US" "01/01/2020" 10 (float_of_Z 100) true)
     (_stock_objs
        (final (add_stock env_no_data "ACME" "US" "01/01/2020" 10 (float_of_Z 100)
                          init))) /\
  data (final (refresh env_ok
                 (final (add_stock env_no_data "ACME" "US" "01/01/2020" 10
                                   (float_of_Z 100) init))))
  = Some (pd_DataFrame
            [Info.mk "ACME" "US" "01/01/2020" 10 (float_of_Z 100) (float_of_Z 150)
                     (float_of_Z 1500)]).
Proof.
  pose proof
    (failed_add_holding_refreshed env_no_data "ACME" "US" "01/01/2020" 10
       (float_of_Z 100) init
       (IndexError "single positional indexer is out-of-bounds") []
       env_ok eq_refl eq_refl) as (_ & _ & Hin & _).
  split; [exact Hin | reflexivity].
Defined.

(** ** The snapshot of a new portfolio *)

Lemma exec_keeps_no_snapshot (c : Call) (self : StockPortfolio) :
  data self = None ->
  fetched_and_completed c self = false ->
  data (final (exec c self)) = None.
Proof.
  intros Hnone. unfold fetched_and_completed.
  destruct c as [env n c d k p | env]; cbn [exec].
  - destruct (add_stock_inv env n c d k p self);
      cbn [outcome final requests data completed]; auto.
    discriminate.
  - destruct (_stock_objs self) as [| s0 rest0] eqn:Hobjs.
    + now rewrite (refresh_nothing env self Hobjs).
    + rewrite refresh_run by congruence.
      destruct (snd (rows_until env (_stock_objs self))) eqn:Herr;
        cbn [outcome final requests data completed]; auto.
      rewrite requests_until_complete by exact Herr.
      rewrite Hobjs. discriminate.
Qed.

Lemma run_calls_keeps_no_snapshot (cs : list Call) :
  forall self : StockPortfolio,
    data self = None ->
    none_rebuilt cs self = true ->
    data (run_calls cs self) = None.
Proof.
  induction cs as [| c rest IH]; intros self Hnone Hquiet;
    cbn [run_calls none_rebuilt] in *; [exact Hnone |].
  apply andb_prop in Hquiet as [Hc Hrest].
  apply IH; [| exact Hrest].
  apply exec_keeps_no_snapshot; [exact Hnone |].
  now apply negb_true_iff.
Qed.

Lemma failed_adds_rebuild_nothing (cs : list Call) :
  forall self : StockPortfolio,
    forallb is_add cs = true ->
    forallb (fun r => negb (completed r)) (outcomes cs self) = true ->
    none_rebuilt cs self = true.
Proof.
  induction cs as [| c rest IH]; intros self Hadds Hfail;
    cbn [forallb outcomes none_rebuilt] in *; [reflexivity |].
  apply andb_prop in Hadds as [_ Hadds].
  apply andb_prop in Hfail as [Hc Hfail].
  rewrite (IH _ Hadds Hfail), andb_true_r.
  unfold fetched_and_completed.
  apply negb_true_iff in Hc. now rewrite Hc.
Qed.

(** C10, as the code has it.  A new portfolio has no holdings, no rows
    and the snapshot [None].  The snapshot stays [None] as long as no call
    has completed after a round trip to the provider, in particular
    through any number of [add_stock] calls that raise; a completed
    [add_stock] sets it to a frame. *)
Theorem new_portfolio_snapshot :
  _stock_objs init = [] /\ _stocks init = [] /\ data init = None /\
  (forall cs, none_rebuilt cs init = true ->
     data (run_calls cs init) = None) /\
  (forall cs,
     forallb is_add cs = true ->
     forallb (fun r => negb (completed r)) (outcomes cs init) = true ->
     data (run_calls cs init) = None) /\
  (forall env n c d k p self,
     outcome (add_stock env n c d k p self) = Return tt ->
     data (final (add_stock env n c d k p self))
     = Some (pd_DataFrame (_stocks (final (add_stock env n c d k p self))))).
Proof.
  split; [reflexivity | split; [reflexivity | split; [reflexivity |]]].
  split; [| split].
  - intros cs. now apply run_calls_keeps_no_snapshot.
  - intros cs Hadds Hfail. apply run_calls_keeps_no_snapshot; [reflexivity |].
    now apply failed_adds_rebuild_nothing.
  - intros env n c d k p self.
    destruct (add_stock_inv env n c d k p self);
      cbn [outcome final data _stocks]; try discriminate.
    reflexivity.
Qed.

Lemma new_portfolio_snapshot_witness :
  data (run_calls
          [AddStock env_unknown "ACME" "US" "01/01/2020" 10 (float_of_Z 100);
           AddStock env_no_data "ACME" "US" "01/01/2020" 10 (float_of_Z 100);
           Refresh env_down] init)
  = None /\
  data (final (add_stock env_ok "ACME" "US" "01/01/2020" 10 (float_of_Z 100) init))
  = Some (pd_DataFrame
            [Info.mk "ACME" "US" "01/01/2020" 10 (float_of_Z 100) (float_of_Z 150)
                     (float_of_Z 1500)]).
Proof.
  destruct new_portfolio_snapshot as (_ & _ & _ & Hquiet & _ & Hset).
  split.
  - apply Hquiet. reflexivity.
  - apply (Hset env_ok "ACME"%string "US"%string "01/01/2020"%string 10%Z
                (float_of_Z 100) init).
    reflexivity.
Defined.

(** C10 fails on the code: on a new portfolio an [add_stock] raises in
    the price fetch, no [add_stock] has succeeded, and a [refresh] that
    completes sets the snapshot. *)
Lemma snapshot_set_without_successful_add :
  outcomes [AddStock env_no_data "ACME" "US" "01/01/2020" 10 (float_of_Z 100);
            Refresh env_ok] init
  = [Raise (IndexError "single positional indexer is out-of-bounds");
     Return tt] /\
  data (run_calls
          [AddStock env_no_data "ACME" "US" "01/01/2020" 10 (float_of_Z 100);
           Refresh env_ok] init)
  = Some (pd_DataFrame
            [Info.mk "ACME" "US" "01/01/2020" 10 (float_of_Z 100) (float_of_Z 150)
                     (float_of_Z 1500)]) /\
  data (run_calls
          [AddStock env_no_data "ACME" "US" "01/01/2020" 10 (float_of_Z 100);
           Refresh env_ok] init)
  <> None.
Proof.
  split; [reflexivity | split; [reflexivity | discriminate]].
Qed.

(** ** When add_stock completes and what it raises *)

Lemma current_price_returns (rows : list Bar) (price : float) :
  current_price rows = Return price ->
  exists earlier latest,
    rows = (earlier ++ [latest])%list /\ price = Close latest.
Proof.
  destruct rows as [| b rest].
  - discriminate.
  - destruct (@exists_last _ (b :: rest)) as (earlier & latest & ->);
      [discriminate |].
    unfold current_price. rewrite iloc_last_snoc. intros [= <-].
    now exists earlier, latest.
Qed.

Lemma row_of_returns_iff (env : Env) (s : Stock.t) :
  (exists info, row_of env s = Return info) <->
  has_rows (get_historical_data env (query_of env s)) /\
  converts (Stock.num_of_shares s).
Proof.
  unfold row_of, has_rows, converts, gross_current_value. split.
  - intros (info & Hrow).
    destruct (get_historical_data env (query_of env s)) as [e | rows];
      [discriminate |].
    destruct (current_price rows) as [price | e] eqn:Hprice; [| discriminate].
    destruct (current_price_returns rows price Hprice)
      as (earlier & latest & -> & _).
    destruct (int_to_float (Stock.num_of_shares s)) as [shares | e];
      [| discriminate].
    split; [now exists earlier, latest | now exists shares].
  - intros [(earlier & latest & ->) (shares & ->)].
    unfold current_price. rewrite iloc_last_snoc. eauto.
Qed.

(** The exception of a round trip that yields no row. *)
Lemma row_of_raises_iff (env : Env) (s : Stock.t) (e : Exception) :
  row_of env s = Raise e <->
  get_historical_data env (query_of env s) = Fails e \/
  (get_historical_data env (query_of env s) = Frame [] /\
   e = IndexError "single positional indexer is out-of-bounds") \/
  (has_rows (get_historical_data env (query_of env s)) /\
   int_to_float (Stock.num_of_shares s) = Raise e).
Proof.
  unfold row_of, has_rows, gross_current_value.
  destruct (get_historical_data env (query_of env s)) as [e0 | rows].
  - split.
    + intros [= ->]. now left.
    + intros [[= ->] | [[Habs _] | [(? & ? & Habs) _]]];
        [reflexivity | discriminate | discriminate].
  - destruct rows as [| b rest].
    + cbn. split.
      * intros [= <-]. right. left. auto.
      * intros [Habs | [[_ ->] | [(earlier & latest & Habs) _]]];
          [discriminate | reflexivity |].
        injection Habs as Habs.
        now destruct (app_cons_not_nil _ _ _ Habs).
    + destruct (@exists_last _ (b :: rest)) as (earlier & latest & ->);
        [discriminate |].
      unfold current_price. rewrite iloc_last_snoc.
      destruct (int_to_float (Stock.num_of_shares s)) as [shares | e0].
      * split; [discriminate |].
        intros [Habs | [[Habs _] | [_ Habs]]]; try discriminate.
        injection Habs as Habs. symmetry in Habs.
        now destruct (app_cons_not_nil _ _ _ Habs).
      * split.
        -- intros [= ->]. right. right. split; [| reflexivity].
           now exists earlier, latest.
        -- intros [Habs | [[Habs _] | [_ [= ->]]]];
             [discriminate | | reflexivity].
           injection Habs as Habs. symmetry in Habs.
           now destruct (app_cons_not_nil _ _ _ Habs).
Qed.

Lemma huge_count_does_not_convert : ~ converts (10 ^ 400).
Proof.
  intros (shares & Hconv). vm_compute in Hconv. discriminate.
Qed.

(** X1.  [add_stock] completes exactly when the catalog accepts the
    holding, the provider answers the request for it with a frame of at
    least one row, and the number of shares is within the range of
    [float]. *)
Theorem add_stock_completes_iff (env : Env) (n c d : string) (k : Z)
    (p : float) (self : StockPortfolio) :
  outcome (add_stock env n c d k p self) = Return tt <->
  catalog env (Stock.init n c d k p) = true /\
  has_rows (get_historical_data env (mkQuery n c d (today env))) /\
  converts k.
Proof.
  change (catalog env (Stock.init n c d k p))
    with (Stock.valid (holding_of env n c d k p)).
  change (mkQuery n c d (today env))
    with (query_of env (holding_of env n c d k p)).
  change (converts k)
    with (converts (Stock.num_of_shares (holding_of env n c d k p))).
  rewrite <- row_of_returns_iff.
  destruct (add_stock_inv env n c d k p self) as [Hv | e Hv Hrow | info Hv Hrow];
    cbn [outcome]; split.
  - discriminate.
  - intros [Hv' _]. congruence.
  - discriminate.
  - intros (_ & info & Hrow'). congruence.
  - intros _. eauto.
  - reflexivity.
Qed.

(** X2.  The exception of [add_stock] tells what went wrong: the
    [ValueError] of the method when the catalog rejects the holding, the
    exception of the provider, unchanged, when the provider raises, the
    [IndexError] of [current_price] when the provider returns a frame
    without rows, and the [OverflowError] of the product when there are
    rows and the number of shares is beyond the range of [float].
    Nothing else is ever raised. *)
Theorem add_stock_raises_iff (env : Env) (n c d : string) (k : Z)
    (p : float) (self : StockPortfolio) (e : Exception) :
  outcome (add_stock env n c d k p self) = Raise e <->
  (catalog env (Stock.init n c d k p) = false /\
   e = ValueError "ERROR [0001]: The introduced Stock is not valid.") \/
  (catalog env (Stock.init n c d k p) = true /\
   get_historical_data env (mkQuery n c d (today env)) = Fails e) \/
  (catalog env (Stock.init n c d k p) = true /\
   get_historical_data env (mkQuery n c d (today env)) = Frame [] /\
   e = IndexError "single positional indexer is out-of-bounds") \/
  (catalog env (Stock.init n c d k p) = true /\
   has_rows (get_historical_data env (mkQuery n c d (today env))) /\
   ~ converts k /\
   e = OverflowError "int too large to convert to float").
Proof.
  change (catalog env (Stock.init n c d k p))
    with (Stock.valid (holding_of env n c d k p)).
  change (mkQuery n c d (today env))
    with (query_of env (holding_of env n c d k p)).
  assert (Hover :
            int_to_float k = Raise e <->
            ~ converts k /\
            e = OverflowError "int too large to convert to float").
  { unfold converts, int_to_float. split.
    - destruct (float_of_Z k); try discriminate.
      intros [= <-]. split; [| reflexivity].
      intros (shares & Habs). discriminate.
    - intros [Hnot ->].
      destruct (float_of_Z k); try reflexivity;
        exfalso; apply Hnot; eauto. }
  pose proof (row_of_raises_iff env (holding_of env n c d k p) e) as Hrow_iff.
  change (Stock.num_of_shares (holding_of env n c d k p)) with k in Hrow_iff.
  rewrite Hover in Hrow_iff.
  destruct (add_stock_inv env n c d k p self) as [Hv | e' Hv Hrow | info Hv Hrow];
    cbn [outcome]; rewrite Hv.
  - split.
    + intros [= <-]. now left.
    + intros [[_ ->] | [[Habs _] | [[Habs _] | [Habs _]]]];
        [reflexivity | | |]; discriminate.
  - split.
    + intros [= <-]. apply Hrow_iff in Hrow. tauto.
    + intros [[Habs _] | Hcases]; [discriminate |].
      assert (Hrow' : row_of env (holding_of env n c d k p) = Raise e)
        by (apply Hrow_iff; tauto).
      congruence.
  - split; [discriminate |].
    intros [[Habs _] | Hcases]; [discriminate |].
    assert (Hrow' : row_of env (holding_of env n c d k p) = Raise e)
      by (apply Hrow_iff; tauto).
    congruence.
Qed.

Lemma add_stock_raises_iff_witness :
  outcome (add_stock env_ok "ACME" "US" "01/01/2020" (10 ^ 400)
                     (float_of_Z 100) init)
  = Raise (OverflowError "int too large to convert to float").
Proof.
  apply (proj2 (add_stock_raises_iff env_ok "ACME" "US" "01/01/2020"
                  (10 ^ 400) (float_of_Z 100) init
                  (OverflowError "int too large to convert to float"))).
  right. right. right. split; [reflexivity |]. split; [| split].
  - exists [mkBar 18263 (float_of_Z 100) (float_of_Z 104) (float_of_Z 99)
                  (float_of_Z 102) 12000],
           (mkBar 18264 (float_of_Z 102) (float_of_Z 151) (float_of_Z 101)
                  (float_of_Z 150) 34000).
    reflexivity.
  - exact huge_count_does_not_convert.
  - reflexivity.
Defined.

(** X3.  When the catalog accepts the holding, the provider returns a
    frame whose last row is [latest] and the number of shares converts to
    the float [shares], [add_stock] completes after this one request; it
    appends the holding, flagged valid, to the holdings, appends the row
    made of the five arguments, the [Close] of [latest] and the rounded
    product of that price and [shares], and sets the snapshot to the frame
    of all rows. *)
Theorem add_stock_records_last_close (env : Env) (n c d : string) (k : Z)
    (p : float) (self : StockPortfolio) (earlier : list Bar) (latest : Bar)
    (shares : float) :
  catalog env (Stock.init n c d k p) = true ->
  get_historical_data env (mkQuery n c d (today env))
  = Frame (earlier ++ [latest]) ->
  int_to_float k = Return shares ->
  add_stock env n c d k p self
  = mkRun (Return tt)
      (mkPortfolio
         (_stocks self
          ++ [Info.mk n c d k p (Close latest)
                      (float_mul (Close latest) shares)])
         (_stock_objs self ++ [Stock.mk n c d k p true])
         (Some (pd_DataFrame
                  (_stocks self
                   ++ [Info.mk n c d k p (Close latest)
                               (float_mul (Close latest) shares)]))))
      [mkQuery n c d (today env)].
Proof.
  intros Hcat Hframe Hconv.
  assert (Hv : Stock.valid (holding_of env n c d k p) = true) by exact Hcat.
  assert (Hrow : row_of env (holding_of env n c d k p)
                 = Return (Info.mk n c d k p (Close latest)
                                   (float_mul (Close latest) shares))).
  { unfold row_of.
    change (query_of env (holding_of env n c d k p))
      with (mkQuery n c d (today env)).
    rewrite Hframe. unfold current_price. rewrite iloc_last_snoc.
    unfold gross_current_value.
    change (Stock.num_of_shares (holding_of env n c d k p)) with k.
    rewrite Hconv. reflexivity. }
  rewrite (add_stock_recorded env n c d k p self _ Hv Hrow).
  unfold holding_of, Stock.validate, Stock.init in *.
  cbn in Hcat |- *. rewrite Hcat. reflexivity.
Qed.

Lemma add_stock_records_last_close_witness :
  add_stock env_ok "ACME" "US" "01/01/2020" 10 (float_of_Z 100) init
  = mkRun (Return tt)
      (mkPortfolio
         [Info.mk "ACME" "US" "01/01/2020" 10 (float_of_Z 100)
                  (float_of_Z 150) (float_of_Z 1500)]
         [Stock.mk "ACME" "US" "01/01/2020" 10 (float_of_Z 100) true]
         (Some (pd_DataFrame
                  [Info.mk "ACME" "US" "01/01/2020" 10 (float_of_Z 100)
                           (float_of_Z 150) (float_of_Z 1500)])))
      [mkQuery "ACME" "US" "01/01/2020" "03/11/2026"].
Proof.
  apply (add_stock_records_last_close env_ok "ACME" "US" "01/01/2020" 10
           (float_of_Z 100) init
           [mkBar 18263 (float_of_Z 100) (float_of_Z 104) (float_of_Z 99)
                  (float_of_Z 102) 12000]
           (mkBar 18264 (float_of_Z 102) (float_of_Z 151) (float_of_Z 101)
                  (float_of_Z 150) 34000)
           (float_of_Z 10));
    reflexivity.
Defined.

(** ** The round trips of refresh *)

Lemma rows_until_requests (env : Env) (stock_objs : list Stock.t)
    (e : Exception) :
  snd (rows_until env stock_objs) = Some e ->
  exists visited failing rest,
    stock_objs = (visited ++ failing :: rest)%list /\
    row_of env failing = Raise e /\
    Forall (fun s => exists info, row_of env s = Return info) visited /\
    requests_until env stock_objs
    = map (query_of env) (visited ++ [failing]).
Proof.
  induction stock_objs as [| s rest IH]; cbn [rows_until requests_until].
  - discriminate.
  - destruct (row_of env s) as [info | e'] eqn:Hrow.
    + destruct (rows_until env rest) as [rows err]. cbn [fst snd] in *.
      intros Herr.
      destruct (IH Herr) as (visited & failing & rest' & -> & Hf & Hok & Hreq).
      exists (s :: visited), failing, rest'.
      repeat split; auto.
      * constructor; eauto.
      * cbn [app map]. now rewrite Hreq.
    + cbn [snd]. intros [= ->]. exists [], s, rest. repeat split; auto.
Qed.

(** X4.  [refresh] asks the provider about the holdings one by one in
    the order of the list.  When it completes it has sent exactly one
    request per holding; when it raises, the last request sent is the one
    for the first holding whose round trip fails, and the holdings after
    it are never asked about. *)
Theorem refresh_requests_in_order (env : Env) (self : StockPortfolio) :
  (outcome (refresh env self) = Return tt ->
   requests (refresh env self) = map (query_of env) (_stock_objs self)) /\
  (forall e,
     outcome (refresh env self) = Raise e ->
     exists visited failing rest,
       _stock_objs self = (visited ++ failing :: rest)%list /\
       Forall (fun s => exists info, row_of env s = Return info) visited /\
       row_of env failing = Raise e /\
       requests (refresh env self)
       = map (query_of env) (visited ++ [failing])).
Proof.
  destruct (_stock_objs self) as [| s0 rest0] eqn:Hobjs.
  - rewrite (refresh_nothing env self Hobjs). cbn [outcome requests].
    split; [reflexivity | discriminate].
  - rewrite refresh_run by congruence. rewrite Hobjs.
    destruct (snd (rows_until env (s0 :: rest0))) as [e' |] eqn:Herr;
      cbn [outcome requests]; split; try discriminate.
    + intros e [= <-].
      destruct (rows_until_requests env _ e' Herr)
        as (visited & failing & rest & Hsplit & Hf & Hok & Hreq).
      exists visited, failing, rest. auto.
    + intros _. now apply requests_until_complete.
Qed.

Lemma refresh_requests_in_order_witness :
  requests (refresh env_ok acme_portfolio)
  = [mkQuery "ACME" "US" "01/01/2020" "03/11/2026"].
Proof.
  exact (proj1 (refresh_requests_in_order env_ok acme_portfolio) eq_refl).
Defined.

Lemma rows_until_all (env : Env) (stock_objs : list Stock.t) :
  snd (rows_until env stock_objs) = None <->
  Forall (fun s => exists info, row_of env s = Return info) stock_objs.
Proof.
  induction stock_objs as [| s rest IH]; cbn [rows_until].
  - split; [constructor | reflexivity].
  - destruct (row_of env s) as [info | e] eqn:Hrow.
    + destruct (rows_until env rest) as [rows err]. cbn [snd] in *.
      rewrite IH. split.
      * intros Hrest. constructor; eauto.
      * intros Hall. now inversion Hall.
    + split; [discriminate |].
      intros Hall. inversion Hall as [| ? ? (info & Hinfo) _]. congruence.
Qed.

(** X5.  [refresh] completes exactly when, for every holding, the
    provider answers the request with a frame of at least one row and the
    number of shares is within the range of [float]; with no holdings it
    always completes. *)
Theorem refresh_completes_iff (env : Env) (self : StockPortfolio) :
  outcome (refresh env self) = Return tt <->
  Forall (fun s =>
            has_rows (get_historical_data env (query_of env s)) /\
            converts (Stock.num_of_shares s))
         (_stock_objs self).
Proof.
  assert (Hiff :
            Forall (fun s =>
                      has_rows (get_historical_data env (query_of env s)) /\
                      converts (Stock.num_of_shares s))
                   (_stock_objs self)
            <-> snd (rows_until env (_stock_objs self)) = None).
  { rewrite rows_until_all. rewrite !Forall_forall.
    split; intros Hall s Hin; apply row_of_returns_iff; auto. }
  rewrite Hiff.
  destruct (_stock_objs self) as [| s0 rest0] eqn:Hobjs.
  - rewrite (refresh_nothing env self Hobjs). cbn. tauto.
  - rewrite refresh_run by congruence. rewrite Hobjs.
    destruct (snd (rows_until env (s0 :: rest0))); cbn [outcome];
      split; congruence.
Qed.

(** X6.  [refresh] does not validate again: with the same provider and
    the same day, the instrument catalog has no influence on the outcome,
    on the portfolio left behind or on the requests sent. *)
Theorem refresh_ignores_catalog (catalog1 catalog2 : Stock.t -> bool)
    (provider : Query -> Response) (day : string)
    (self : StockPortfolio) :
  refresh (mkEnv catalog1 provider day) self
  = refresh (mkEnv catalog2 provider day) self.
Proof.
  assert (Hloop : forall stock_objs self',
             refresh_loop (mkEnv catalog1 provider day) stock_objs self'
             = refresh_loop (mkEnv catalog2 provider day) stock_objs self').
  { induction stock_objs as [| s rest IH]; intros self'; [reflexivity |].
    cbn [refresh_loop]. rewrite !bind_run.
    change (get_stock_info (mkEnv catalog1 provider day) s self')
      with (get_stock_info (mkEnv catalog2 provider day) s self').
    destruct (outcome (get_stock_info (mkEnv catalog2 provider day) s self'));
      [| reflexivity].
    rewrite !bind_run. cbn [stocks_append outcome final requests].
    now rewrite IH. }
  unfold refresh.
  destruct (0 <? Z.of_nat (List.length (_stock_objs self)))%Z; [| reflexivity].
  rewrite !bind_run. cbn [stocks_reset outcome final requests].
  rewrite ?bind_run, !Hloop. reflexivity.
Qed.

(** X7.  A [refresh] that completes on a portfolio with holdings keeps
    nothing of the previous rows or snapshot: the rows are those just
    computed from the holdings, the snapshot is their frame, and two
    portfolios with the same holdings end up equal. *)
Theorem refresh_rebuilds_from_holdings (env : Env)
    (self other : StockPortfolio) :
  _stock_objs self <> [] ->
  _stock_objs other = _stock_objs self ->
  outcome (refresh env self) = Return tt ->
  refresh env other = refresh env self /\
  data (final (refresh env self))
  = Some (pd_DataFrame (_stocks (final (refresh env self)))) /\
  Forall2 (fun info s => row_of env s = Return info)
          (_stocks (final (refresh env self))) (_stock_objs self).
Proof.
  intros Hne Hsame.
  assert (Hne' : _stock_objs other <> []) by congruence.
  rewrite (refresh_run env other Hne'), (refresh_run env self Hne), Hsame.
  destruct (snd (rows_until env (_stock_objs self))) as [e |] eqn:Herr;
    cbn [outcome final _stocks data]; [discriminate |].
  intros _. repeat split. now apply rows_until_complete.
Qed.

Lemma refresh_rebuilds_from_holdings_witness :
  refresh env_ok
    (final (add_stock env_no_data "ACME" "US" "01/01/2020" 10 (float_of_Z 100)
                      init))
  = refresh env_ok acme_portfolio.
Proof.
  apply (refresh_rebuilds_from_holdings env_ok acme_portfolio
           (final (add_stock env_no_data "ACME" "US" "01/01/2020" 10
                             (float_of_Z 100) init))).
  - discriminate.
  - reflexivity.
  - reflexivity.
Defined.

Lemma rows_until_fresh (env : Env) (rows : list Info.t)
    (stock_objs : list Stock.t) :
  Forall2 (fun info s => row_of env s = Return info) rows stock_objs ->
  rows_until env stock_objs = (rows, None).
Proof.
  induction 1 as [| info s rows rest Hrow _ IH]; cbn [rows_until];
    [reflexivity |].
  now rewrite Hrow, IH.
Qed.

(** X8.  On a portfolio that is up to date (each row is what the provider
    now yields for the holding at its index, and the snapshot is the frame
    of the rows) [refresh] completes and changes nothing. *)
Theorem refresh_up_to_date (env : Env) (self : StockPortfolio) :
  Forall2 (fun info s => row_of env s = Return info)
          (_stocks self) (_stock_objs self) ->
  data self = Some (pd_DataFrame (_stocks self)) ->
  outcome (refresh env self) = Return tt /\
  final (refresh env self) = self.
Proof.
  intros Hrows Hdata.
  destruct (_stock_objs self) as [| s0 rest0] eqn:Hobjs.
  - now rewrite (refresh_nothing env self Hobjs).
  - rewrite refresh_run by congruence. rewrite Hobjs.
    rewrite (rows_until_fresh env _ _ Hrows). cbn [fst snd outcome final].
    split; [reflexivity |].
    destruct self as [rows objs df]. cbn [_stocks _stock_objs data] in *.
    now rewrite Hdata, Hobjs.
Qed.

Lemma refresh_up_to_date_witness :
  outcome (refresh env_ok acme_portfolio) = Return tt /\
  final (refresh env_ok acme_portfolio) = acme_portfolio.
Proof.
  apply (refresh_up_to_date env_ok acme_portfolio).
  - repeat constructor.
  - reflexivity.
Defined.

(** ** The holdings list over a history *)

Lemma exec_holdings (c : Call) (self : StockPortfolio) :
  _stock_objs (final (exec c self))
  = (_stock_objs self ++ accepted_holdings [c])%list.
Proof.
  destruct c as [env n c d k p | env]; cbn [exec accepted_holdings].
  - destruct (add_stock_inv env n c d k p self) as [Hv | e Hv _ | info Hv _];
      rewrite Hv; cbn [final _stock_objs]; [now rewrite app_nil_r | |];
      reflexivity.
  - rewrite app_nil_r.
    destruct (_stock_objs self) as [| s0 rest0] eqn:Hobjs.
    + now rewrite (refresh_nothing env self Hobjs).
    + rewrite refresh_run by congruence.
      now destruct (snd (rows_until env (_stock_objs self))).
Qed.

Lemma accepted_holdings_cons (c : Call) (rest : list Call) :
  accepted_holdings (c :: rest)
  = (accepted_holdings [c] ++ accepted_holdings rest)%list.
Proof.
  destruct c as [env n c d k p | env]; cbn [accepted_holdings];
    [| reflexivity].
  now destruct (Stock.valid (holding_of env n c d k p)).
Qed.

Lemma accepted_holdings_valid (cs : list Call) :
  Forall (fun s => Stock.valid s = true) (accepted_holdings cs).
Proof.
  induction cs as [| [env n c d k p | env] rest IH];
    cbn [accepted_holdings]; auto.
  destruct (Stock.valid (holding_of env n c d k p)) eqn:Hv; auto.
Qed.

(** X9.  Whatever the history of calls, the holdings list only grows at
    its end: after the history it is the list before it followed by the
    holdings of the [add_stock] calls the catalog accepted, in call order,
    whether or not their price fetch succeeded; [refresh] and rejected
    adds contribute nothing, and nothing is ever removed or reordered. *)
Theorem holdings_after_history (cs : list Call) (self : StockPortfolio) :
  _stock_objs (run_calls cs self)
  = (_stock_objs self ++ accepted_holdings cs)%list.
Proof.
  revert self. induction cs as [| c rest IH]; intros self.
  - cbn [run_calls accepted_holdings]. now rewrite app_nil_r.
  - cbn [run_calls].
    rewrite (accepted_holdings_cons c rest), IH, exec_holdings.
    now rewrite app_assoc.
Qed.

(** X10.  Every holding of a portfolio a client can reach carries the
    flag [valid = True]: only validated stocks are ever stored. *)
Theorem reachable_holdings_valid (self : StockPortfolio) :
  reachable self ->
  Forall (fun s => Stock.valid s = true) (_stock_objs self).
Proof.
  induction 1 as [| c self _ IH].
  - constructor.
  - rewrite exec_holdings. apply Forall_app. split; [exact IH |].
    apply accepted_holdings_valid.
Qed.

Lemma reachable_holdings_valid_witness :
  Forall (fun s => Stock.valid s = true)
         (_stock_objs
            (final (add_stock env_no_data "ACME" "US" "01/01/2020" 10
                              (float_of_Z 100) acme_portfolio))).
Proof.
  apply (reachable_holdings_valid
           (final (exec (AddStock env_no_data "ACME" "US" "01/01/2020" 10
                                  (float_of_Z 100)) acme_portfolio))).
  apply reachable_call. apply run_calls_reachable. exact reachable_init.
Defined.

(** ** The rows over a history *)

Lemma exec_add_rows (env : Env) (n c d : string) (k : Z) (p : float)
    (self : StockPortfolio) :
  _stocks (final (add_stock env n c d k p self))
  = (_stocks self ++ recorded_rows [AddStock env n c d k p])%list.
Proof.
  cbn [recorded_rows].
  destruct (add_stock_inv env n c d k p self) as [Hv | e Hv Hrow | info Hv Hrow];
    rewrite Hv; try rewrite Hrow; cbn [final _stocks];
    now rewrite ?app_nil_r.
Qed.

Lemma recorded_rows_cons (c : Call) (rest : list Call) :
  recorded_rows (c :: rest)
  = (recorded_rows [c] ++ recorded_rows rest)%list.
Proof.
  destruct c as [env n c d k p | env]; cbn [recorded_rows]; [| reflexivity].
  destruct (Stock.valid (holding_of env n c d k p)); [| reflexivity].
  now destruct (row_of env (holding_of env n c d k p)).
Qed.

(** X11.  Over a history made of [add_stock] calls only, failing calls
    leave the rows alone: the rows afterwards are the rows before followed
    by one row per call that completed, in call order. *)
Theorem rows_after_adds (cs : list Call) (self : StockPortfolio) :
  forallb is_add cs = true ->
  _stocks (run_calls cs self) = (_stocks self ++ recorded_rows cs)%list /\
  List.length (recorded_rows cs)
  = List.length (filter completed (outcomes cs self)).
Proof.
  revert self. induction cs as [| c rest IH]; intros self Hadds.
  - cbn [run_calls recorded_rows outcomes filter]. now rewrite app_nil_r.
  - cbn [forallb] in Hadds. apply andb_prop in Hadds as [Hadd Hadds].
    destruct c as [env n c d k p | env]; [| discriminate].
    destruct (IH (final (exec (AddStock env n c d k p) self)) Hadds)
      as [Hrows Hlen].
    cbn [run_calls outcomes filter]. rewrite Hrows.
    rewrite (recorded_rows_cons (AddStock env n c d k p) rest).
    cbn [exec] in *. rewrite exec_add_rows, app_assoc.
    split; [reflexivity |].
    rewrite length_app, Hlen. cbn [recorded_rows].
    destruct (add_stock_inv env n c d k p self) as [Hv | e Hv Hrow | info Hv Hrow];
      rewrite Hv; try rewrite Hrow; reflexivity.
Qed.

Lemma rows_after_adds_witness :
  _stocks
    (run_calls
       [AddStock env_unknown "ACME" "US" "01/01/2020" 10 (float_of_Z 100);
        AddStock env_ok "BBVA" "spain" "02/01/2020" 5 (float_of_Z 4);
        AddStock env_down "ACME" "US" "01/01/2020" 10 (float_of_Z 100)]
       acme_portfolio)
  = [Info.mk "ACME" "US" "01/01/2020" 10 (float_of_Z 100) (float_of_Z 150) (float_of_Z 1500);
     Info.mk "BBVA" "spain" "02/01/2020" 5 (float_of_Z 4) (float_of_Z 150) (float_of_Z 750)].
Proof.
  exact (proj1
           (rows_after_adds
              [AddStock env_unknown "ACME" "US" "01/01/2020" 10 (float_of_Z 100);
               AddStock env_ok "BBVA" "spain" "02/01/2020" 5 (float_of_Z 4);
               AddStock env_down "ACME" "US" "01/01/2020" 10 (float_of_Z 100)]
              acme_portfolio eq_refl)).
Defined.

(** ** Rows and snapshot against the holdings *)

Lemma subsequence_refl {A : Type} (l : list A) : subsequence l l.
Proof.
  induction l; constructor; assumption.
Qed.

Lemma subsequence_nil_l {A : Type} (l : list A) : subsequence [] l.
Proof.
  induction l; constructor; assumption.
Qed.

Lemma subsequence_app {A : Type} (sub1 l1 sub2 l2 : list A) :
  subsequence sub1 l1 -> subsequence sub2 l2 ->
  subsequence (sub1 ++ sub2) (l1 ++ l2).
Proof.
  induction 1 as [| x sub l _ IH | x sub l _ IH]; intros H2; cbn [app].
  - exact H2.
  - apply subsequence_skip. now apply IH.
  - apply subsequence_take. now apply IH.
Qed.

Lemma subsequence_length {A : Type} (sub l : list A) :
  subsequence sub l -> (List.length sub <= List.length l)%nat.
Proof.
  induction 1; cbn [List.length]; lia.
Qed.

Lemma rows_of_some_holdings_more (rows : list Info.t)
    (stock_objs more : list Stock.t) :
  rows_of_some_holdings rows stock_objs ->
  rows_of_some_holdings rows (stock_objs ++ more).
Proof.
  intros (kept & Hsub & Hrows). exists kept. split; [| exact Hrows].
  rewrite <- (app_nil_r kept).
  apply subsequence_app; [exact Hsub | apply subsequence_nil_l].
Qed.

Lemma rows_of_some_holdings_snoc (rows : list Info.t)
    (stock_objs : list Stock.t) (info : Info.t) (s : Stock.t) :
  rows_of_some_holdings rows stock_objs ->
  computed_from info s ->
  rows_of_some_holdings (rows ++ [info]) (stock_objs ++ [s]).
Proof.
  intros (kept & Hsub & Hrows) Hinfo. exists (kept ++ [s])%list. split.
  - apply subsequence_app; [exact Hsub | apply subsequence_refl].
  - apply Forall2_app; [exact Hrows | repeat constructor; exact Hinfo].
Qed.

Lemma rows_until_of_some_holdings (env : Env) (stock_objs : list Stock.t) :
  rows_of_some_holdings (fst (rows_until env stock_objs)) stock_objs.
Proof.
  assert (Himpl : forall rows kept,
             Forall2 (fun info s => row_of env s = Return info) rows kept ->
             Forall2 computed_from rows kept).
  { intros rows kept Hrows. eapply Forall2_impl; [| exact Hrows].
    intros info s Hrow. now exists env. }
  destruct (snd (rows_until env stock_objs)) as [e |] eqn:Herr.
  - destruct (rows_until_failed env stock_objs e Herr)
      as (visited & failing & rest & Hsplit & _ & Hrows).
    exists visited. split; [| now apply Himpl].
    rewrite Hsplit, <- (app_nil_r visited) at 1.
    apply subsequence_app; [apply subsequence_refl | apply subsequence_nil_l].
  - exists stock_objs. split; [apply subsequence_refl |].
    now apply Himpl, rows_until_complete.
Qed.

(** The rows, and the rows of the snapshot when there is one, are rows of
    some of the holdings, and a snapshot is never without rows. *)
Lemma reachable_rows_from_holdings (self : StockPortfolio) :
  reachable self ->
  rows_of_some_holdings (_stocks self) (_stock_objs self) /\
  forall rows,
    data self = Some (pd_DataFrame rows) ->
    rows <> [] /\ rows_of_some_holdings rows (_stock_objs self).
Proof.
  induction 1 as [| c self _ [IHrows IHdata]].
  - split; [| discriminate].
    exists []. split; constructor.
  - destruct c as [env n c d k p | env]; cbn [exec].
    + destruct (add_stock_inv env n c d k p self)
        as [Hv | e Hv Hrow | info Hv Hrow];
        cbn [final _stocks _stock_objs data].
      * split; assumption.
      * split; [now apply rows_of_some_holdings_more |].
        intros rows Hdata. destruct (IHdata rows Hdata) as [Hne Hsome].
        split; [exact Hne | now apply rows_of_some_holdings_more].
      * assert (Hnew : rows_of_some_holdings
                         (_stocks self ++ [info])
                         (_stock_objs self ++ [holding_of env n c d k p])).
        { apply rows_of_some_holdings_snoc; [exact IHrows | now exists env]. }
        split; [exact Hnew |].
        intros rows [= <-]. split; [| exact Hnew].
        intros Habs. now destruct (app_cons_not_nil _ _ _ (eq_sym Habs)).
    + destruct (_stock_objs self) as [| s0 rest0] eqn:Hobjs.
      * rewrite (refresh_nothing env self Hobjs). cbn [final].
        rewrite Hobjs. split; assumption.
      * rewrite refresh_run by congruence. rewrite Hobjs.
        pose proof (rows_until_of_some_holdings env (s0 :: rest0)) as Hnew.
        pose proof (rows_until_complete env (s0 :: rest0)) as Hall.
        set (new_rows := fst (rows_until env (s0 :: rest0))) in *.
        destruct (snd (rows_until env (s0 :: rest0))) as [e |];
          cbn [final _stocks _stock_objs data].
        -- split; assumption.
        -- split; [exact Hnew |].
           intros rows [= <-]. split; [| exact Hnew].
           apply Forall2_length in Hall; [| reflexivity].
           intros Habs. rewrite Habs in Hall. discriminate.
Qed.

(** X12.  In every portfolio a client can reach, the rows are rows
    computed from some of the holdings, in the order of the holdings; so
    there are never more rows than holdings (there can be fewer, after a
    price fetch failed). *)
Theorem reachable_rows_of_holdings (self : StockPortfolio) :
  reachable self ->
  rows_of_some_holdings (_stocks self) (_stock_objs self) /\
  (List.length (_stocks self) <= List.length (_stock_objs self))%nat.
Proof.
  intros Hreach.
  destruct (reachable_rows_from_holdings self Hreach) as [Hrows _].
  split; [exact Hrows |].
  destruct Hrows as (kept & Hsub & Hall).
  rewrite (Forall2_length Hall). now apply subsequence_length.
Qed.

Lemma reachable_rows_of_holdings_witness :
  (List.length
     (_stocks
        (run_calls
           [AddStock env_no_data "ACME" "US" "01/01/2020" 10 (float_of_Z 100);
            AddStock env_ok "BBVA" "spain" "02/01/2020" 5 (float_of_Z 4)] init))
   <= List.length
        (_stock_objs
           (run_calls
              [AddStock env_no_data "ACME" "US" "01/01/2020" 10 (float_of_Z 100);
               AddStock env_ok "BBVA" "spain" "02/01/2020" 5 (float_of_Z 4)]
              init)))%nat.
Proof.
  apply (reachable_rows_of_holdings
           (run_calls
              [AddStock env_no_data "ACME" "US" "01/01/2020" 10 (float_of_Z 100);
               AddStock env_ok "BBVA" "spain" "02/01/2020" 5 (float_of_Z 4)]
              init)).
  apply run_calls_reachable. exact reachable_init.
Defined.

(** X13.  In every portfolio a client can reach, the snapshot is either
    [None] or a frame with at least one row, never an empty frame, and
    each of its rows was computed from one of the holdings now in the
    list, in their order. *)
Theorem reachable_snapshot_rows (self : StockPortfolio) :
  reachable self ->
  data self = None \/
  exists rows,
    data self = Some (pd_DataFrame rows) /\
    rows <> [] /\
    rows_of_some_holdings rows (_stock_objs self).
Proof.
  intros Hreach.
  destruct (reachable_rows_from_holdings self Hreach) as [_ Hdata].
  destruct (data self) as [[rows] |]; [right | now left].
  exists rows. split; [reflexivity | now apply Hdata].
Qed.

Lemma reachable_snapshot_rows_witness :
  data (final (refresh env_down acme_portfolio)) = None \/
  exists rows,
    data (final (refresh env_down acme_portfolio))
    = Some (pd_DataFrame rows) /\
    rows <> [] /\
    rows_of_some_holdings
      rows (_stock_objs (final (refresh env_down acme_portfolio))).
Proof.
  apply (reachable_snapshot_rows
           (final (exec (Refresh env_down) acme_portfolio))).
  apply reachable_call. apply run_calls_reachable. exact reachable_init.
Defined.

(** X14.  After every call that completes and leaves at least one
    holding, the snapshot is the frame of exactly the current rows. *)
Theorem completed_call_snapshot_in_sync (c : Call)
    (self : StockPortfolio) :
  outcome (exec c self) = Return tt ->
  _stock_objs (final (exec c self)) <> [] ->
  data (final (exec c self))
  = Some (pd_DataFrame (_stocks (final (exec c self)))).
Proof.
  destruct c as [env n c d k p | env]; cbn [exec].
  - destruct (add_stock_inv env n c d k p self);
      cbn [outcome final _stocks data]; try discriminate.
    reflexivity.
  - destruct (_stock_objs self) as [| s0 rest0] eqn:Hobjs.
    + rewrite (refresh_nothing env self Hobjs). cbn [final]. congruence.
    + rewrite refresh_run by congruence.
      destruct (snd (rows_until env (_stock_objs self)));
        cbn [outcome final _stocks data]; [discriminate | reflexivity].
Qed.

Lemma completed_call_snapshot_in_sync_witness :
  data (final (exec (Refresh env_ok)
                 (final (add_stock env_no_data "ACME" "US" "01/01/2020" 10
                                   (float_of_Z 100) init))))
  = Some (pd_DataFrame
            (_stocks
               (final (exec (Refresh env_ok)
                         (final (add_stock env_no_data "ACME" "US"
                                           "01/01/2020" 10 (float_of_Z 100)
                                           init)))))).
Proof.
  apply (completed_call_snapshot_in_sync (Refresh env_ok)
           (final (add_stock env_no_data "ACME" "US" "01/01/2020" 10
                             (float_of_Z 100) init))).
  - reflexivity.
  - discriminate.
Defined.

(** X15.  No call takes a portfolio back to the empty state: once there
    is a holding there is one after every call, raised or not, and once
    there is a snapshot it is never reset to [None]. *)
Theorem populated_stays_populated (c : Call) (self : StockPortfolio) :
  (_stock_objs self <> [] -> _stock_objs (final (exec c self)) <> []) /\
  (data self <> None -> data (final (exec c self)) <> None).
Proof.
  split.
  - rewrite exec_holdings. intros Hne Habs.
    apply app_eq_nil in Habs as [Habs _]. contradiction.
  - destruct c as [env n c d k p | env]; cbn [exec].
    + destruct (add_stock_inv env n c d k p self); cbn [final data];
        auto; discriminate.
    + destruct (_stock_objs self) as [| s0 rest0] eqn:Hobjs.
      * now rewrite (refresh_nothing env self Hobjs).
      * rewrite refresh_run by congruence.
        destruct (snd (rows_until env (_stock_objs self)));
          cbn [final data]; auto; discriminate.
Qed.

Lemma populated_stays_populated_witness :
  _stock_objs (final (exec (Refresh env_down) acme_portfolio)) <> [] /\
  data (final (exec (Refresh env_down) acme_portfolio)) <> None.
Proof.
  destruct (populated_stays_populated (Refresh env_down) acme_portfolio)
    as [Hobjs Hdata].
  split; [apply Hobjs | apply Hdata]; discriminate.
Defined.

(** ** The price of a longer series *)

(** X16.  [current_price] looks at the last row only: rows put in front
    of a non-empty series do not change the result. *)
Theorem current_price_ignores_history (older series : list Bar) :
  series <> [] ->
  current_price (older ++ series) = current_price series.
Proof.
  intros Hne. destruct (exists_last Hne) as (earlier & latest & ->).
  unfold current_price.
  now rewrite app_assoc, !iloc_last_snoc.
Qed.

Lemma current_price_ignores_history_witness :
  current_price
    ([mkBar 18262 (float_of_Z 90) (float_of_Z 101) (float_of_Z 89) (float_of_Z 100) 9000] ++ acme_series)
  = current_price acme_series.
Proof.
  apply (current_price_ignores_history
           [mkBar 18262 (float_of_Z 90) (float_of_Z 101) (float_of_Z 89) (float_of_Z 100) 9000]
           acme_series).
  discriminate.
Defined.

(** ** A holding that cannot be valued *)

(** X17.  When the catalog accepts a holding whose number of shares is
    beyond the range of [float], [add_stock] raises but the holding is
    stored; it stays stored through whatever calls follow, and from then
    on no [refresh] completes, whatever the provider answers. *)
Theorem unconvertible_holding_blocks_refresh (env : Env) (n c d : string)
    (k : Z) (p : float) (self : StockPortfolio) (cs : list Call)
    (env2 : Env) :
  catalog env (Stock.init n c d k p) = true ->
  ~ converts k ->
  completed (outcome (add_stock env n c d k p self)) = false /\
  In (Stock.mk n c d k p true)
     (_stock_objs (run_calls cs (final (add_stock env n c d k p self)))) /\
  outcome (refresh env2 (run_calls cs (final (add_stock env n c d k p self))))
  <> Return tt.
Proof.
  intros Hcat Hnot.
  assert (Hheld : holding_of env n c d k p = Stock.mk n c d k p true).
  { unfold holding_of, Stock.validate, Stock.init in *. cbn in Hcat |- *.
    now rewrite Hcat. }
  assert (Hv : Stock.valid (holding_of env n c d k p) = true)
    by now rewrite Hheld.
  assert (Hnorow : forall env' info,
             row_of env' (Stock.mk n c d k p true) <> Return info).
  { intros env' info Hrow. apply Hnot.
    exact (proj2 (proj1 (row_of_returns_iff env' _)
                        (ex_intro _ info Hrow))). }
  rewrite <- Hheld in *.
  destruct (add_stock_inv env n c d k p self) as [Hv' | e _ _ | info _ Hrow];
    cbn [outcome final completed];
    [congruence | | now destruct (Hnorow env info)].
  set (left_behind :=
         mkPortfolio (_stocks self)
                     (_stock_objs self ++ [holding_of env n c d k p])
                     (data self)).
  assert (Hin : In (holding_of env n c d k p)
                   (_stock_objs (run_calls cs left_behind))).
  { apply run_calls_keeps_holdings. cbn [left_behind _stock_objs].
    apply in_or_app. right. now left. }
  split; [reflexivity | split; [exact Hin |]].
  set (later := run_calls cs left_behind) in *.
  assert (Hne : _stock_objs later <> [])
    by (intros Hnil; rewrite Hnil in Hin; exact Hin).
  rewrite refresh_run by exact Hne.
  destruct (snd (rows_until env2 (_stock_objs later))) eqn:Herr;
    cbn [outcome]; [discriminate |].
  intros _. apply rows_until_all in Herr.
  rewrite Forall_forall in Herr.
  destruct (Herr _ Hin) as (info & Hrow). exact (Hnorow env2 info Hrow).
Qed.

Lemma unconvertible_holding_blocks_refresh_witness :
  outcome (refresh env_ok
             (run_calls
                [AddStock env_ok "BBVA" "spain" "02/01/2020" 5 (float_of_Z 4)]
                (final (add_stock env_ok "ACME" "US" "01/01/2020" (10 ^ 400)
                                  (float_of_Z 100) init))))
  <> Return tt.
Proof.
  apply (unconvertible_holding_blocks_refresh env_ok "ACME" "US"
           "01/01/2020" (10 ^ 400) (float_of_Z 100) init
           [AddStock env_ok "BBVA" "spain" "02/01/2020" 5 (float_of_Z 4)]
           env_ok).
  - reflexivity.
  - exact huge_count_does_not_convert.
Defined.
